(** * saucebot: the [Sauce] cog (src/saucebot/cogs/sauce.py)

    A shallow embedding of the command pipeline of the cog: the channel
    guard, the image resolver, the disambiguation prompt, the member rate
    limit, the cached lookup, the preview reconciler and the API key
    registration command.

    Conventions.
    - Python strings are [string]s whose characters are read as code points
      below 256; [None] is [option]'s [None]; truthiness is written out
      ([truthy]).
    - Coroutines are run to completion in a state-and-exception monad [M]
      over a [World]: the persistent stores (query log, cache, guild keys)
      and the trace of everything the cog asked of the outside (chat
      platform, identification services).  The state survives a raised
      exception, as the database rows do.
    - What the outside answers (channel history, reactions, service
      responses) is an input, the record [Env].  Code of the repository that
      is imported by the cog but lives in other modules is a [Helpers]
      record or is modelled from the specification, and is marked so. *)

From Stdlib Require Import ZArith NArith Lia Ascii String.
From Stdlib Require Strings.Byte.
From stdpp Require Import gmap strings list pretty.

Open Scope string_scope.

(** ** Python values *)

Module Py.

(** [bool(s)] for a [str]. *)
Definition truthy_str (s : string) : bool := negb (s =? "").

(** [bool(x)] for an [Optional[str]]. *)
Definition truthy (x : option string) : bool :=
  match x with
  | Some s => truthy_str s
  | None => false
  end.

(** [s.endswith(suffix)]. *)
Definition endswith (s suffix : string) : bool :=
  let n := String.length s in
  let k := String.length suffix in
  (k <=? n)%nat && (String.substring (n - k) k s =? suffix).

(** [s.endswith((x1, ..., xn))]: a tuple of suffixes. *)
Definition endswith_any (s : string) (suffixes : list string) : bool :=
  existsb (endswith s) suffixes.

(** [s.startswith(p)]. *)
Definition startswith (s p : string) : bool := String.prefix p s.

(** [needle in hay] for two [str]: substring search. *)
Fixpoint str_in (needle hay : string) : bool :=
  String.prefix needle hay ||
  match hay with
  | EmptyString => false
  | String _ rest => str_in needle rest
  end.

(** [str(n)] for a non-negative [int]: its decimal numeral. *)
Definition str (n : N) : string := pretty n.

(** [items[i]] with Python's negative indices; [None] stands for
    [IndexError]. *)
Definition index {A} (items : list A) (i : Z) : option A :=
  let n := Z.of_nat (length items) in
  if (0 <=? i)%Z then items !! Z.to_nat i
  else if (- n <=? i)%Z then items !! Z.to_nat (n + i)
  else None.

Definition LF : ascii := ascii_of_nat 10.

(** The text a pattern ending in [$] has to cover: [$] matches at the end
    of the string and also just before a newline that ends the string. *)
Definition before_dollar (s : string) : list string :=
  let n := String.length s in
  if endswith s (String LF EmptyString)
  then [s; String.substring 0 (n - 1) s]
  else [s].

Definition code (c : ascii) : nat := nat_of_ascii c.

(** [[a-zA-Z0-9]]. *)
Definition is_alnum (c : ascii) : bool :=
  let n := code c in
  ((48 <=? n) && (n <=? 57) || (65 <=? n) && (n <=? 90) ||
   (97 <=? n) && (n <=? 122))%nat.

(** [\s] of a [str] pattern, on code points below 256. *)
Definition is_space (c : ascii) : bool :=
  let n := code c in
  ((9 <=? n) && (n <=? 13) || (28 <=? n) && (n <=? 32) ||
   (n =? 133) || (n =? 160))%nat.

Definition chars (s : string) : list ascii := list_ascii_of_string s.

(** [c.lower()] for a code point below 256: the letters A-Z and the
    Latin-1 capitals 192-222 (215, the multiplication sign, apart) move up
    by 32; no other code point below 256 changes. *)
Definition lower_char (c : ascii) : ascii :=
  let n := code c in
  if ((65 <=? n) && (n <=? 90) || (192 <=? n) && (n <=? 214) ||
      (216 <=? n) && (n <=? 222))%nat
  then ascii_of_nat (n + 32) else c.

(** [s.lower()]. *)
Fixpoint lower (s : string) : string :=
  match s with
  | EmptyString => EmptyString
  | String c rest => String (lower_char c) (lower rest)
  end.

(** [s.replace(a, b)] for two single characters. *)
Fixpoint replace (a b : ascii) (s : string) : string :=
  match s with
  | EmptyString => EmptyString
  | String c rest => String (if Ascii.eqb c a then b else c) (replace a b rest)
  end.

(** An [Optional[str]] inside an f-string. *)
Definition format (x : option string) : string :=
  match x with
  | Some s => s
  | None => "None"
  end.

End Py.

(** ** Data model *)

(** A [discord.Attachment]: the two fields the cog reads. *)
Record Attachment := {
  attachment_url : string;          (* attachment.url *)
  attachment_proxy_url : string     (* attachment.proxy_url *)
}.

(** A [discord.Message]. *)
Record Message := {
  message_id : N;                   (* message.id *)
  author : N;                       (* message.author.id *)
  content : string;
  attachments : list Attachment
}.

(** [message.reference.resolved]: nothing, a deleted message, or the
    message replied to. *)
Inductive Resolved :=
| ResolvedNone
| DeletedReferencedMessage
| ResolvedMessage (m : Message).

(** A [commands.Context]: the invoking message, its [reference] (absent
    when the command is not a reply), the channel and the guild. *)
Record Context := {
  message : Message;
  reference : option Resolved;
  channel_id : N;
  channel_is_nsfw : bool;
  guild : N
}.

(** The classes of [pysaucenao.containers] a result can have; the name of
    the class is the variant tag of a cache entry. *)
Inductive Container :=
| GenericSource
| AnimeSource
| VideoSource
| MangaSource
| BooruSource.

#[global] Instance Container_eq_dec : EqDecision Container.
Proof. solve_decision. Defined.

(** A lookup result.  The library builds every result, fresh or out of the
    cache, by a call [container(header, data)] and derives the remaining
    attributes from these two values. *)
Record SauceResult := {
  result_class : Container;
  header : string;
  data : string
}.

(** Modelled from the spec: a row of [SauceCache] (saucebot.models.database
    is not part of the sources at hand): "url (key, unique), variant_tag,
    serialized_header, serialized_payload, created_at".  The url is the key
    of the store. *)
Record CacheEntry := {
  cache_result_class : string;
  cache_header : string;
  cache_result : string;
  created_at : N
}.

(** Modelled from the spec: a row of [SauceQueries]: "user_id, guild_id,
    url, timestamp". *)
Record QueryLogEntry := {
  user_id : N;
  guild_id : N;
  query_url : string;
  timestamp : N
}.

(** Localised text is referred to by its key: [lang(section, key)]. *)
Inductive Text := lang (section key : string).

Inductive Avatar := AVATAR_SILLY | AVATAR_THINKING.

(** What a reply shows: [basic_embed(title, description, avatar)], the
    "not found" embed with its search-engine links (lines 190-209), or the
    embed [_build_sauce_embed] builds for a result. *)
Inductive Embed :=
| basic_embed (title description : Text) (avatar : option Avatar)
| not_found_embed (image_url : string)
| sauce_embed (sauce : SauceResult).

(** [discord.File(BytesIO(preview_file), filename=...)]. *)
Record File := {
  file_bytes : list Byte.byte;
  filename : string
}.

(** A [discord.Reaction] as [reaction_check] sees it. *)
Record Reaction := {
  reaction_message : N;
  emoji : string
}.

(** Exceptions.  The four named pysaucenao exceptions derive from
    [SauceNaoException]; [OtherException] is any exception outside that
    hierarchy. *)
Inductive Exn :=
| AttributeError
| TypeError
| IndexError
| ShortLimitReachedException
| DailyLimitReachedException
| InvalidOrWrongApiKeyException
| InvalidImageException
| SauceNaoException
| OtherException.

Inductive Res (A : Type) :=
| Ok (a : A)
| Raised (e : Exn).
Arguments Ok {A} a.
Arguments Raised {A} e.

(** The answer of [SauceNao.from_url]. *)
Record SearchResults := {
  results : list SauceResult;
  short_remaining : N;
  long_remaining : N
}.

Inductive AccountType := ACCOUNT_UNREGISTERED | ACCOUNT_FREE | ACCOUNT_ENHANCED.

#[global] Instance AccountType_eq_dec : EqDecision AccountType.
Proof. solve_decision. Defined.

(** The answer of [SauceNao.test]. *)
Record TestResult := {
  success : bool;
  account_type : AccountType
}.

(** An entry of [tracemoe_sauce['docs']]. *)
Record TraceDoc := {
  anilist_id : N;
  is_adult : bool
}.

(** Everything the cog asks of the outside, in the order asked. *)
Inductive Event :=
| Reply (embed : Embed) (file : option File)   (* ctx.reply *)
| Send (embed : Embed)                         (* ctx.send(embed=...) *)
| ChannelSend (text : Text)                    (* channel.send(text) *)
| AddReaction (msg : N) (e : string)           (* message.add_reaction *)
| WaitForReaction (timeout : N)                (* bot.wait_for('reaction_add') *)
| Delete (msg : N)                             (* message.delete *)
| History (limit : nat)                        (* channel.history *)
| LogQuery (q : QueryLogEntry)                 (* SauceQueries.log *)
| CacheFetch (u : string)                      (* SauceCache.fetch *)
| CacheStore (u : string)                      (* SauceCache.add_or_update *)
| RemoteSearch (api_key : option string) (u : string) (* SauceNao.from_url *)
| RemoteTest (api_key : string)                (* SauceNao.test *)
| TraceMoeSearch (u : string)                  (* ATraceMoe.search *)
| TraceMoePreview                              (* video_preview_natural *)
| Register (g : N) (api_key : string).         (* Servers.register *)

(** The stores and the trace (oldest event first). *)
Record World := {
  queries : list QueryLogEntry;
  cache : gmap string CacheEntry;
  servers : gmap N string;
  trace : list Event
}.

(** The options of the configuration file the cog reads; [None] is an
    option that is not set. *)
Record Config := {
  discord_channel_id : option string;     (* Discord / channel_id *)
  saucenao_api_key : option string;       (* SauceNao / api_key *)
  member_api_limit : option Z;            (* SauceNao / member_api_limit *)
  tracemoe_token : option string          (* TraceMoe / token *)
}.

(** What the outside answers during one invocation. *)
Record Env := {
  bot_user_id : N;                        (* bot.user.id *)
  now : N;                                (* the clock of the stores *)
  history : list Message;                 (* the channel, newest first *)
  prompt_id : N;                          (* id of the prompt message *)
  reactions : list (Reaction * N);        (* reaction_add events before the
                                             timeout: reaction, user id *)
  from_url : option string -> string -> Res SearchResults;
  test : string -> TestResult;
  tracemoe_search : string -> Res (list TraceDoc);
  video_preview_natural : list TraceDoc -> Res (list Byte.byte);
  load_ids : SauceResult -> bool;         (* AnimeSource.load_ids *)
  sauce_anilist_id : SauceResult -> option N  (* sauce.anilist_id, loaded *)
}.

(** Functions the cog imports from modules that are not part of the sources
    at hand (saucebot.helpers, pysaucenao). *)
Record Helpers := {
  validate_url : string -> bool;
  keycap_emoji : nat -> string;
  keycap_to_int : Reaction -> Z;
  sauce_title : SauceResult -> option string   (* sauce.title *)
}.

(** ** The monad of a coroutine *)

Definition M (A : Type) : Type := World -> Res A * World.

Definition ret {A} (a : A) : M A := fun w => (Ok a, w).

Definition raise {A} (e : Exn) : M A := fun w => (Raised e, w).

Definition bind {A B} (c : M A) (k : A -> M B) : M B :=
  fun w =>
    match c w with
    | (Ok a, w') => k a w'
    | (Raised e, w') => (Raised e, w')
    end.

(** [try: c] with the outcome handed to the [except] clauses. *)
Definition attempt {A} (c : M A) : M (Res A) :=
  fun w => let (r, w') := c w in (Ok r, w').

(** The world after the events [evs] have been added to its trace. *)
Definition record (w : World) (evs : list Event) : World :=
  {| queries := queries w; cache := cache w; servers := servers w;
     trace := trace w ++ evs |}.

Definition emit (e : Event) : M unit := fun w => (Ok tt, record w [e]).

Notation "x <- c ;; k" := (bind c (fun x => k))
  (at level 100, c at next level, right associativity).
Notation "c ;; k" := (bind c (fun _ => k))
  (at level 100, right associativity).

(** [for x in l: body(x)]. *)
Fixpoint for_each {A} (l : list A) (body : A -> M unit) : M unit :=
  match l with
  | [] => ret tt
  | x :: rest => body x ;; for_each rest body
  end.

(** ** The stores (saucebot.models.database) *)

(** [type(sauce).__name__]. *)
Definition class_name (c : Container) : string :=
  match c with
  | GenericSource => "GenericSource"
  | AnimeSource => "AnimeSource"
  | VideoSource => "VideoSource"
  | MangaSource => "MangaSource"
  | BooruSource => "BooruSource"
  end.

(** [getattr(pysaucenao.containers, name)]: the class of that name, as the
    constructor of its results; [None] stands for [AttributeError]. *)
Definition containers_getattr (name : string)
  : option (string -> string -> SauceResult) :=
  if name =? "GenericSource" then Some (Build_SauceResult GenericSource)
  else if name =? "AnimeSource" then Some (Build_SauceResult AnimeSource)
  else if name =? "VideoSource" then Some (Build_SauceResult VideoSource)
  else if name =? "MangaSource" then Some (Build_SauceResult MangaSource)
  else if name =? "BooruSource" then Some (Build_SauceResult BooruSource)
  else None.

Module Servers.

(** Modelled from the spec: [Servers.lookup_guild], of the module
    saucebot.models.database: "GuildApiKey is looked up by guild identity
    to select which credential the Sauce Lookup Service uses". *)
Definition lookup_guild (g : N) : M (option string) :=
  fun w => (Ok (servers w !! g), w).

(** Modelled from the spec: [Servers.register], of the same module:
    "persists the key as that guild's GuildApiKey, overwriting any prior
    key". *)
Definition register (g : N) (api_key : string) : M unit :=
  fun w => (Ok tt, {| queries := queries w; cache := cache w;
                      servers := <[g := api_key]> (servers w);
                      trace := trace w ++ [Register g api_key] |}).

End Servers.

Module SauceQueries.

(** Modelled from the spec: [SauceQueries.log], of the module
    saucebot.models.database: "Log the query (URL + user + guild)"; the
    log is "append-only". *)
Definition log (ctx : Context) (u : string) (time : N) : M unit :=
  fun w =>
    let q := {| user_id := author (message ctx); guild_id := guild ctx;
                query_url := u; timestamp := time |} in
    (Ok tt, {| queries := queries w ++ [q]; cache := cache w;
               servers := servers w; trace := trace w ++ [LogQuery q] |}).

(** The number of logged queries of a user. *)
Definition logged (user : N) (log : list QueryLogEntry) : Z :=
  Z.of_nat (length (filter (fun q => user_id q = user) log)).

(** Modelled from the spec: [SauceQueries.user_count], of the same module:
    "a count query over QueryLogEntry scoped to the user". *)
Definition user_count (user : N) : M Z :=
  fun w => (Ok (logged user (queries w)), w).

End SauceQueries.

Module SauceCache.

(** Modelled from the spec: [SauceCache.fetch], of the module
    saucebot.models.database: "Cache lookup by exact URL string match". *)
Definition fetch (u : string) : M (option CacheEntry) :=
  fun w => (Ok (cache w !! u),
            {| queries := queries w; cache := cache w;
               servers := servers w; trace := trace w ++ [CacheFetch u] |}).

(** Modelled from the spec: [SauceCache.add_or_update], of the same
    module: "write it to the cache keyed by the original URL (overwriting
    any existing stale entry)", the row holding the "variant tag + header
    + payload" of the result. *)
Definition add_or_update (u : string) (sauce : SauceResult) (time : N)
  : M unit :=
  fun w =>
    let row := {| cache_result_class := class_name (result_class sauce);
                  cache_header := header sauce;
                  cache_result := data sauce;
                  created_at := time |} in
    (Ok tt, {| queries := queries w; cache := <[u := row]> (cache w);
               servers := servers w; trace := trace w ++ [CacheStore u] |}).

End SauceCache.

(** ** Patterns *)

(** [IMAGE_URL_RE.match(s)] for
    [^https?://\S+(\.jpg|\.png|\.jpeg|\.webp)$]: behind the scheme come
    characters that are no whitespace, the last of them one of the four
    extensions, with at least one character before the extension. *)
Definition IMAGE_URL_RE_match (s : string) : bool :=
  existsb (fun t =>
    existsb (fun scheme =>
      let rest := String.substring (String.length scheme)
                    (String.length t - String.length scheme) t in
      Py.startswith t scheme &&
      forallb (fun c => negb (Py.is_space c)) (Py.chars rest) &&
      existsb (fun ext =>
        Py.endswith rest ext && (String.length ext <? String.length rest)%nat)
        [".jpg"; ".png"; ".jpeg"; ".webp"])
      ["http://"; "https://"])
    (Py.before_dollar s).

(** [self._re_api_key.match(s)] for [^[a-zA-Z0-9]{40}$]. *)
Definition _re_api_key_match (s : string) : bool :=
  existsb (fun t =>
    (String.length t =? 40)%nat && forallb Py.is_alnum (Py.chars t))
    (Py.before_dollar s).

(** ** The cog *)

Definition nonempty {A} (l : list A) : bool :=
  match l with
  | [] => false
  | _ :: _ => true
  end.

(** Modelled from the spec: [reaction_check(message, users, emojis)], of the
    module saucebot.helpers: "Only reactions from the original invoking user
    count; all others are ignored", the reaction being one of the offered
    emoji on the prompt. *)
Definition reaction_check (prompt : N) (users : list N) (emojis : list string)
  (ev : Reaction * N) : bool :=
  (reaction_message (fst ev) =? prompt)%N &&
  existsb (N.eqb (snd ev)) users &&
  existsb (String.eqb (emoji (fst ev))) emojis.

Section Cog.

Variable hlp : Helpers.
Variable cfg : Config.
Variable env : Env.

(** [ctx.reply(embed=basic_embed(title=lang('Global', 'generic_error'),
    description=lang('Sauce', key), avatar=avatar))]. *)
Definition reply_error (key : string) (avatar : Avatar) : M unit :=
  emit (Reply (basic_embed (lang "Global" "generic_error") (lang "Sauce" key)
                 (Some avatar)) None).

(** Lines 265-281. *)
Definition _get_attachment_image (attachment : Attachment) : option string :=
  if negb (Py.truthy_str (attachment_url attachment)) then None
  else if Py.endswith_any (attachment_url attachment)
            [".jpg"; ".png"; ".gif"; ".jpeg"; ".webp"]
  then Some (attachment_url attachment)
  else if Py.endswith_any (attachment_url attachment)
            [".mp4"; ".webm"; ".mov"]
  then Some (attachment_proxy_url attachment ++ "?format=jpeg")
  else None.

(** Lines 247-263. *)
Definition _get_image_attachments (m : Message) : list Attachment :=
  List.filter (fun attachment => Py.truthy (_get_attachment_image attachment))
    (attachments m).

(** Lines 283-300.  The prompt is the message [channel.send] returns; the
    wait ends with the first event that passes the check, or with
    [asyncio.TimeoutError] when there is none. *)
Definition _index_prompt (ctx : Context) (items : list Attachment)
  : M (option Attachment) :=
  emit (ChannelSend (lang "Sauce" "multiple_images")) ;;
  let prompt := prompt_id env in
  let index_range := seq 1 (Nat.min (length items) 10) in
  for_each index_range
    (fun index => emit (AddReaction prompt (keycap_emoji hlp index))) ;;
  let check := reaction_check prompt [author (message ctx)]
                 (map (keycap_emoji hlp) index_range) in
  emit (WaitForReaction 60) ;;
  match List.find check (reactions env) with
  | None =>
      emit (Delete (message_id (message ctx))) ;;
      emit (Delete prompt) ;;
      ret None
  | Some (reaction, user) =>
      emit (Delete prompt) ;;
      match Py.index items (keycap_to_int hlp reaction - 1) with
      | Some item => ret (Some item)
      | None => raise IndexError
      end
  end.

(** The loop of lines 228-245 over the messages the history yields.  An
    [attachment] that is [None] has no [url]: [_get_attachment_image]
    raises [AttributeError] on it. *)
Fixpoint _get_last_image_post_loop (ctx : Context) (messages : list Message)
  : M (option string) :=
  match messages with
  | [] => ret None
  | m :: rest =>
      let image_attachments := _get_image_attachments m in
      if nonempty image_attachments then
        attachment <-
          (if (1 <? length image_attachments)%nat
           then _index_prompt ctx image_attachments
           else ret (head image_attachments)) ;;
        match attachment with
        | None => raise AttributeError
        | Some a => ret (_get_attachment_image a)
        end
      else if IMAGE_URL_RE_match (content m) then ret (Some (content m))
      else _get_last_image_post_loop ctx rest
  end.

(** Lines 219-245. *)
Definition _get_last_image_post (ctx : Context) : M (option string) :=
  emit (History 50) ;;
  _get_last_image_post_loop ctx (take 50 (history env)).

(** Lines 472-487; [ctx.author] is the author of the invoking message. *)
Definition _check_member_limited (ctx : Context) : M bool :=
  let member_limit := default 0%Z (member_api_limit cfg) in
  if (member_limit =? 0)%Z then ret false
  else
    count <- SauceQueries.user_count (author (message ctx)) ;;
    ret (member_limit <=? count)%Z.

(** Lines 302-347. *)
Definition _get_sauce (ctx : Context) (u : string) : M (option SauceResult) :=
  api_key <- Servers.lookup_guild (guild ctx) ;;
  let api_key := if Py.truthy api_key then api_key
                 else saucenao_api_key cfg in
  SauceQueries.log ctx u (now env) ;;
  cached <- SauceCache.fetch u ;;
  match cached with
  | Some row =>
      match containers_getattr (cache_result_class row) with
      | None => raise AttributeError
      | Some container =>
          ret (Some (container (cache_header row) (cache_result row)))
      end
  | None =>
      emit (RemoteSearch api_key u) ;;
      match from_url env api_key u with
      | Raised e => raise e
      | Ok search =>
          let sauce := head (results search) in
          match sauce with
          | Some s => SauceCache.add_or_update u s (now env)
          | None => ret tt
          end ;;
          ret sauce
      end
  end.

(** Lines 407-443; [self.tracemoe] is set when the token is (line 44). *)
Definition _video_preview (sauce : SauceResult) (path_or_fh : string)
  : M (option (list Byte.byte) * bool) :=
  if negb (Py.truthy (tracemoe_token cfg)) then ret (None, false)
  else
    emit (TraceMoeSearch path_or_fh) ;;
    match tracemoe_search env path_or_fh with
    | Raised _ => ret (None, false)
    | Ok [] => ret (None, false)
    | Ok (top :: others) =>
        if load_ids env sauce then
          if negb (bool_decide
                     (sauce_anilist_id env sauce = Some (anilist_id top)))
          then ret (None, false)
          else
            emit TraceMoePreview ;;
            match video_preview_natural env (top :: others) with
            | Raised e => raise e
            | Ok tracemoe_preview =>
                ret (Some tracemoe_preview, is_adult top)
            end
        else ret (None, false)
    end.

(** [sauce], lines 175-217: the preview of an anime result and the
    reply.  A result object is truthy; [not sauce] is the absent result. *)
Definition sauce_reply (ctx : Context) (image_in_command : bool)
  (u : string) (sauce : option SauceResult) : M unit :=
  preview <-
    match sauce with
    | Some s =>
        if bool_decide (result_class s = AnimeSource) then
          r <- _video_preview s u ;;
          match fst r with
          | Some preview_file =>
              if nonempty preview_file then
                if snd r && negb (channel_is_nsfw ctx) then ret None
                else ret (Some {|
                       file_bytes := preview_file;
                       filename :=
                         Py.replace " "%char "_"%char
                           (Py.lower (Py.format (sauce_title hlp s)
                                        ++ "_preview.mp4")) |})
              else ret None
          | None => ret None
          end
        else ret None
    | None => ret None
    end ;;
  match sauce with
  | None => emit (Reply (not_found_embed u) None)
  | Some s =>
      emit (Reply (sauce_embed s) preview) ;;
      if negb image_in_command && negb (bool_decide (is_Some (reference ctx)))
      then emit (Delete (message_id (message ctx)))
      else ret tt
  end.

(** [sauce], lines 131-173: the [except] clauses, first match first. *)
Definition sauce_except (ctx : Context) (e : Exn) : M unit :=
  match e with
  | ShortLimitReachedException | DailyLimitReachedException =>
      emit (Delete (message_id (message ctx))) ;;
      reply_error "api_limit_exceeded" AVATAR_THINKING
  | InvalidOrWrongApiKeyException =>
      emit (Delete (message_id (message ctx))) ;;
      reply_error "rejected_api_key" AVATAR_THINKING
  | InvalidImageException =>
      emit (Delete (message_id (message ctx))) ;;
      reply_error "no_images" AVATAR_SILLY
  | SauceNaoException =>
      emit (Delete (message_id (message ctx))) ;;
      reply_error "api_offline" AVATAR_THINKING
  | _ => raise e
  end.

(** [sauce], lines 103-173, then [sauce_reply]: the checks and the lookup
    of the url that was found. *)
Definition sauce_checks (ctx : Context) (image_in_command : bool)
  (u : string) : M unit :=
  if negb (validate_url hlp u) then reply_error "bad_url" AVATAR_SILLY
  else
    limited <- _check_member_limited ctx ;;
    if limited then reply_error "member_api_limit_exceeded" AVATAR_SILLY
    else
      r <- attempt (_get_sauce ctx u) ;;
      match r with
      | Raised e => sauce_except ctx e
      | Ok sauce => sauce_reply ctx image_in_command u sauce
      end.

(** [sauce], lines 89-101, then [sauce_checks]: the channel search when
    there is no url yet. *)
Definition sauce_lookup (ctx : Context) (image_in_command : bool)
  (url : option string) : M unit :=
  url <- (if Py.truthy url then ret url else _get_last_image_post ctx) ;;
  if negb (Py.truthy url) then reply_error "no_images" AVATAR_SILLY
  else sauce_checks ctx image_in_command (default "" url).

(** [sauce], lines 67-76: the url taken from the message replied to. *)
Definition sauce_reference (ctx : Context) (resolved : Resolved)
  (url : option string) : M (option string) :=
  match resolved with
  | ResolvedMessage reference =>
      let image_attachments := _get_image_attachments reference in
      if nonempty image_attachments then
        if (1 <? length image_attachments)%nat then
          attachment <- _index_prompt ctx image_attachments ;;
          match attachment with
          | None => raise AttributeError
          | Some a => ret (Some (attachment_url a))
          end
        else ret (attachment_url <$> head image_attachments)
      else ret url
  | _ => ret url
  end.

(** [sauce], lines 49-217.  (The guild cooldown of line 48 belongs to the
    command framework and runs before the body.) *)
Definition sauce (ctx : Context) (url : option string) : M unit :=
  let author_id := author (message ctx) in
  match discord_channel_id cfg with
  | None => raise TypeError
  | Some target_channel_id =>
      if negb (Py.str_in (Py.str (channel_id ctx)) target_channel_id)
         || (author_id =? bot_user_id env)%N
      then ret tt
      else
        let image_in_command :=
          Py.truthy url || nonempty (_get_image_attachments (message ctx)) in
        match reference ctx with
        | Some resolved =>
            if negb image_in_command then
              url <- sauce_reference ctx resolved url ;;
              if negb (Py.truthy url)
              then reply_error "no_images" AVATAR_SILLY
              else sauce_lookup ctx image_in_command url
            else sauce_lookup ctx image_in_command url
        | None => sauce_lookup ctx image_in_command url
        end
  end.

(** Line 63. *)
Definition image_in_command (ctx : Context) (url : option string) : bool :=
  Py.truthy url || nonempty (_get_image_attachments (message ctx)).

(** The image resolver: lines 63-90 of [sauce] read as the function that
    yields the url handed to the checks; a falsy result is what [sauce]
    answers with the no_images error. *)
Definition image_resolver (ctx : Context) (url : option string)
  : M (option string) :=
  match reference ctx with
  | Some resolved =>
      if negb (image_in_command ctx url)
      then sauce_reference ctx resolved url
      else if Py.truthy url then ret url else _get_last_image_post ctx
  | None => if Py.truthy url then ret url else _get_last_image_post ctx
  end.

(** Line 55. *)
Definition sauce_guard (ctx : Context) (target_channel_id : string) : bool :=
  negb (Py.str_in (Py.str (channel_id ctx)) target_channel_id)
  || (author (message ctx) =? bot_user_id env)%N.

(** [ctx.send(embed=basic_embed(title=lang('Global', title),
    description=lang('Sauce', key)))]. *)
Definition send_embed (title key : string) : M unit :=
  emit (Send (basic_embed (lang "Global" title) (lang "Sauce" key) None)).

(** Lines 489-549.  (The permission check and the cooldown of lines
    490-491 belong to the command framework.) *)
Definition apikey (ctx : Context) (api_key : string) : M unit :=
  emit (Delete (message_id (message ctx))) ;;
  if negb (_re_api_key_match api_key)
  then send_embed "generic_error" "bad_api_key"
  else
    emit (RemoteTest api_key) ;;
    let t := test env api_key in
    if negb (success t) then send_embed "generic_error" "api_offline"
    else if negb (bool_decide (account_type t = ACCOUNT_ENHANCED))
    then send_embed "generic_error" "api_free"
    else
      Servers.register (guild ctx) api_key ;;
      send_embed "generic_success" "registered_api_key".

End Cog.

Section PromptTrace.

Variable hlp : Helpers.
Variable env : Env.

(** The numbers offered for [n] items: 1 to min(n, 10). *)
Definition index_range (n : nat) : list nat := seq 1 (Nat.min n 10).

(** What the prompt does before it waits. *)
Definition offer (items : list Attachment) : list Event :=
  ChannelSend (lang "Sauce" "multiple_images")
  :: map (fun index => AddReaction (prompt_id env) (keycap_emoji hlp index))
       (index_range (length items))
  ++ [WaitForReaction 60].

(** The check the prompt waits with: the invoking user, on the prompt, with
    one of the offered emoji. *)
Definition prompt_check (ctx : Context) (items : list Attachment)
  : Reaction * N -> bool :=
  reaction_check (prompt_id env) [author (message ctx)]
    (map (keycap_emoji hlp) (index_range (length items))).

End PromptTrace.

(** ** The error handler of the command *)

(** What the command framework hands to the handler: the cooldown of line
    48 has run out, or anything else. *)
Inductive CommandError :=
| CommandOnCooldown
| OtherCommandError.

(** How the handler ends: it returns, or it raises the error again. *)
Inductive Handled :=
| Returned
| Reraised (error : CommandError).

Section Handler.

Variable hlp : Helpers.
Variable cfg : Config.
Variable env : Env.

(** Lines 445-470.  [ctx.reinvoke()] calls the command again with the
    argument of the invocation, past its checks and its cooldown. *)
Definition sauce_error (ctx : Context) (url : option string)
  (error : CommandError) : M Handled :=
  match error with
  | CommandOnCooldown =>
      key <- Servers.lookup_guild (guild ctx) ;;
      if Py.truthy key then
        sauce hlp cfg env ctx url ;;
        ret Returned
      else
        send_embed "generic_error" "api_limit_exceeded" ;;
        ret (Reraised error)
  | OtherCommandError => ret (Reraised error)
  end.

End Handler.

(** ** Predicates of the statements *)

(** A coroutine that only adds to the trace: the stores are left as they
    were, whatever it returns or raises. *)
Definition chat_only {A} (c : M A) : Prop :=
  forall w, exists evs, snd (c w) = record w evs.

(** A message the channel search passes over: no qualifying attachment and
    no image link as its text. *)
Definition barren (m : Message) : Prop :=
  _get_image_attachments m = [] /\ IMAGE_URL_RE_match (content m) = false.

(** A text that is an image link and nothing else: [http://] or
    [https://], one or more characters that are no whitespace, one of the
    four extensions, and at most one line feed after it. *)
Definition image_link (s : string) : Prop :=
  exists scheme body ext,
    In scheme ["http://"; "https://"] /\
    In ext [".jpg"; ".png"; ".jpeg"; ".webp"] /\
    body <> "" /\
    Forall (fun c => Py.is_space c = false) (Py.chars body) /\
    (s = scheme ++ body ++ ext \/
     s = (scheme ++ body ++ ext) ++ String Py.LF "").

(** The entry [_get_sauce] logs for a url. *)
Definition query_of (env : Env) (ctx : Context) (u : string) : QueryLogEntry :=
  {| user_id := author (message ctx); guild_id := guild ctx;
     query_url := u; timestamp := now env |}.

(** The key [_get_sauce] searches with (lines 313-315). *)
Definition key_of (cfg : Config) (ctx : Context) (w : World) : option string :=
  if Py.truthy (servers w !! guild ctx) then servers w !! guild ctx
  else saucenao_api_key cfg.

(** The answer of [sauce] to an exception of the lookup (lines 131-173). *)
Definition answer_of (e : Exn) : option Event :=
  let error key avatar :=
    Some (Reply (basic_embed (lang "Global" "generic_error")
                   (lang "Sauce" key) (Some avatar)) None) in
  match e with
  | ShortLimitReachedException | DailyLimitReachedException =>
      error "api_limit_exceeded" AVATAR_THINKING
  | InvalidOrWrongApiKeyException => error "rejected_api_key" AVATAR_THINKING
  | InvalidImageException => error "no_images" AVATAR_SILLY
  | SauceNaoException => error "api_offline" AVATAR_THINKING
  | _ => None
  end.

(** What one invocation may do to the world: the trace is extended, the
    guild keys are kept, and either log and cache are kept or one query is
    logged and at most one cache row is written, under the url logged. *)
Definition one_lookup (env : Env) (ctx : Context) (w w' : World) : Prop :=
  (exists evs, trace w' = (trace w ++ evs)%list) /\
  servers w' = servers w /\
  ((queries w' = queries w /\ cache w' = cache w) \/
   exists u,
     queries w' = (queries w ++ [query_of env ctx u])%list /\
     (cache w' = cache w \/ exists row, cache w' = <[u := row]> (cache w))).

(** ** Sample data for the concrete runs *)

Module Sample.

Definition helpers : Helpers := {|
  validate_url := fun u => Py.startswith u "http";
  keycap_emoji := fun n => pretty n ++ "#";
  keycap_to_int := fun r =>
    match emoji r with
    | String c _ => (Z.of_nat (Py.code c) - 48)%Z
    | EmptyString => 0%Z
    end;
  sauce_title := fun s => Some (header s)
|}.

Definition config_with (limit : option Z) (token : option string) : Config :=
  {| discord_channel_id := Some "100,200";
     saucenao_api_key := Some "shared";
     member_api_limit := limit;
     tracemoe_token := token |}.

Definition config : Config := config_with None None.

(** The outside: the channel, the reactions that arrive, what the primary
    service finds and what the secondary service answers.  The bot is user
    1, the prompt becomes message 900, every anime has anilist id 100. *)
Definition env_with (channel : list Message) (arriving : list (Reaction * N))
  (found : list SauceResult) (docs : Res (list TraceDoc)) : Env :=
  {| bot_user_id := 1;
     now := 0;
     history := channel;
     prompt_id := 900;
     reactions := arriving;
     from_url := fun _ _ =>
       Ok {| results := found; short_remaining := 3; long_remaining := 99 |};
     test := fun _ => {| success := true; account_type := ACCOUNT_ENHANCED |};
     tracemoe_search := fun _ => docs;
     video_preview_natural := fun _ => Ok [Byte.x00];
     load_ids := fun _ => true;
     sauce_anilist_id := fun _ => Some 100%N |}.

Definition env : Env := env_with [] [] [] (Ok []).

Definition world : World :=
  {| queries := []; cache := ∅; servers := ∅; trace := [] |}.

Definition b_jpg : Attachment :=
  {| attachment_url := "https://cdn/b.jpg";
     attachment_proxy_url := "https://media/b.jpg" |}.

Definition c_png : Attachment :=
  {| attachment_url := "https://cdn/c.png";
     attachment_proxy_url := "https://media/c.png" |}.

Definition v_mp4 : Attachment :=
  {| attachment_url := "https://cdn/v.mp4";
     attachment_proxy_url := "https://media/v.mp4" |}.

(** A message of user 8. *)
Definition post (atts : list Attachment) : Message :=
  {| message_id := 9; author := 8; content := "look"; attachments := atts |}.

(** A command message of user 7 in a channel of guild 5. *)
Definition command_in (channel : N) (atts : list Attachment)
  (reply_to : option Resolved) : Context :=
  {| message := {| message_id := 10; author := 7; content := "!sauce";
                   attachments := atts |};
     reference := reply_to;
     channel_id := channel;
     channel_is_nsfw := false;
     guild := 5 |}.

Definition command := command_in 100.

(** User 7 has five queries in the log. *)
Definition busy_world : World :=
  {| queries := replicate 5 {| user_id := 7; guild_id := 5;
                               query_url := "https://x/a.png";
                               timestamp := 0 |};
     cache := ∅; servers := ∅; trace := [] |}.

Definition anime : SauceResult :=
  {| result_class := AnimeSource; header := "Some Show"; data := "ep 3" |}.

(** Forty alphanumeric characters and a line feed. *)
Definition key41 : string :=
  "0123456789abcdefghijABCDEFGHIJ0123456789" ++ String Py.LF "".

Definition no_images : Event :=
  Reply (basic_embed (lang "Global" "generic_error")
           (lang "Sauce" "no_images") (Some AVATAR_SILLY)) None.

End Sample.

(** More sample data. *)

Module Cases.

(** Helpers whose keycap emoji are the letters A, B, C, ... *)
Definition lettered : Helpers := {|
  validate_url := fun u => Py.startswith u "http";
  keycap_emoji := fun n => String (ascii_of_nat (64 + n)) "";
  keycap_to_int := fun r =>
    match emoji r with
    | String c _ => (Z.of_nat (Py.code c) - 64)%Z
    | EmptyString => 0%Z
    end;
  sauce_title := fun s => Some (header s)
|}.

(** An outside whose primary service raises. *)
Definition env_failing (e : Exn) : Env :=
  {| bot_user_id := 1;
     now := 0;
     history := [];
     prompt_id := 900;
     reactions := [];
     from_url := fun _ _ => Raised e;
     test := fun _ => {| success := true; account_type := ACCOUNT_ENHANCED |};
     tracemoe_search := fun _ => Ok [];
     video_preview_natural := fun _ => Ok [];
     load_ids := fun _ => false;
     sauce_anilist_id := fun _ => None |}.

(** Fifty messages without anything, then one with an image. *)
Definition quiet_channel : list Message :=
  replicate 50 (Sample.post []) ++ [Sample.post [Sample.b_jpg]].

(** The command message itself, with a video attached. *)
Definition command_with_video : Context :=
  Sample.command [Sample.v_mp4] None.

Definition key40 : string := "0123456789abcdefghijABCDEFGHIJ0123456789".

(** User 7 has four queries in the log. *)
Definition world_of_four : World :=
  {| queries := replicate 4 {| user_id := 7; guild_id := 5;
                               query_url := "https://x/a.png";
                               timestamp := 0 |};
     cache := ∅; servers := ∅; trace := [] |}.

Definition adult_match : TraceDoc := {| anilist_id := 100; is_adult := true |}.

(** An outside that finds the anime, whose secondary service has the same
    anilist id on top, and whose clip download raises [e]. *)
Definition env_clip_failing (e : Exn) : Env :=
  {| bot_user_id := 1;
     now := 0;
     history := [];
     prompt_id := 900;
     reactions := [];
     from_url := fun _ _ =>
       Ok {| results := [Sample.anime]; short_remaining := 3;
             long_remaining := 99 |};
     test := fun _ => {| success := true; account_type := ACCOUNT_ENHANCED |};
     tracemoe_search := fun _ => Ok [{| anilist_id := 100; is_adult := false |}];
     video_preview_natural := fun _ => Raised e;
     load_ids := fun _ => true;
     sauce_anilist_id := fun _ => Some 100%N |}.

End Cases.

(** ** Properties *)

Lemma record_nil w : record w [] = w.
Proof. destruct w. unfold record. simpl. by rewrite app_nil_r. Qed.

Lemma record_record w evs1 evs2 :
  record (record w evs1) evs2 = record w (evs1 ++ evs2).
Proof. unfold record. simpl. by rewrite app_assoc. Qed.

Lemma truthy_Some u : u ≠ "" -> Py.truthy (Some u) = true.
Proof.
  intros Hu. unfold Py.truthy, Py.truthy_str.
  destruct (String.eqb_spec u ""); [contradiction | reflexivity].
Qed.

Section Resolver.

Variable hlp : Helpers.
Variable cfg : Config.
Variable env : Env.

(** [sauce] behind its guard is the resolver followed by the checks. *)
Lemma sauce_image_resolver ctx url w target :
  discord_channel_id cfg = Some target ->
  sauce_guard env ctx target = false ->
  sauce hlp cfg env ctx url w =
  (r <- image_resolver hlp env ctx url ;;
   if negb (Py.truthy r) then reply_error "no_images" AVATAR_SILLY
   else sauce_checks hlp cfg env ctx
          (image_in_command ctx url) (default "" r)) w.
Proof.
  intros Hcfg Hguard. unfold sauce, image_resolver.
  rewrite Hcfg. unfold sauce_guard in Hguard. rewrite Hguard.
  fold (image_in_command ctx url).
  assert (Hlookup : forall w0,
    sauce_lookup hlp cfg env ctx (image_in_command ctx url) url w0 =
    (r <- (if Py.truthy url then ret url
           else _get_last_image_post hlp env ctx) ;;
     if negb (Py.truthy r) then reply_error "no_images" AVATAR_SILLY
     else sauce_checks hlp cfg env ctx
            (image_in_command ctx url) (default "" r)) w0)
    by reflexivity.
  destruct (reference ctx) as [resolved|]; [|apply Hlookup].
  destruct (image_in_command ctx url) eqn:Hin.
  - change (negb true) with false. cbv iota. apply Hlookup.
  - change (negb false) with true. cbv iota. unfold bind.
    destruct (sauce_reference hlp env ctx resolved url w) as [[r|e] w'];
      [|reflexivity].
    destruct (Py.truthy r) eqn:Hr; simpl; [|reflexivity].
    unfold sauce_lookup, bind. rewrite Hr. simpl. by rewrite Hr.
Qed.

(** Without the target-channel option line 55 tests membership in [None]. *)
Lemma sauce_without_channel_option ctx url w :
  discord_channel_id cfg = None ->
  sauce hlp cfg env ctx url w = (Raised TypeError, w).
Proof. intros Hcfg. unfold sauce. by rewrite Hcfg. Qed.

(** C10: when the channel id is not contained in the configured
    target-channel setting, or the author is the bot itself, [sauce]
    returns at once: nothing is sent, resolved, logged or raised, the
    world is the one it started from. *)
Theorem sauce_guard_returns_silently ctx url w target :
  discord_channel_id cfg = Some target ->
  negb (Py.str_in (Py.str (channel_id ctx)) target)
    || (author (message ctx) =? bot_user_id env)%N = true ->
  sauce hlp cfg env ctx url w = (Ok tt, w).
Proof.
  intros Hcfg Hguard. unfold sauce. by rewrite Hcfg, Hguard.
Qed.

(** C1, as the code has it: an explicit url that is supplied is the url
    the resolver yields, whatever the attachments, the reply and the
    channel hold; nothing is asked of the outside, and [sauce] goes on
    to check that url. *)
Theorem explicit_url_is_resolved ctx u w target :
  u ≠ "" ->
  discord_channel_id cfg = Some target ->
  sauce_guard env ctx target = false ->
  image_resolver hlp env ctx (Some u) w = (Ok (Some u), w) /\
  sauce hlp cfg env ctx (Some u) w = sauce_checks hlp cfg env ctx true u w.
Proof.
  intros Hu Hcfg Hguard. apply truthy_Some in Hu.
  assert (Hres : image_resolver hlp env ctx (Some u) w = (Ok (Some u), w)).
  { unfold image_resolver, image_in_command. rewrite Hu. simpl.
    by destruct (reference ctx). }
  split; [exact Hres|].
  rewrite (sauce_image_resolver _ _ _ _ Hcfg Hguard).
  unfold bind. rewrite Hres. rewrite Hu. simpl.
  unfold image_in_command. by rewrite Hu.
Qed.

(** C2: a reply without an inline image, to a message without qualifying
    attachments: the resolver has no url, [sauce] answers no_images and
    returns; the trace grows by that reply alone, so the channel history
    is not read, whatever it holds. *)
Theorem reply_without_image_fails_at_once ctx url w target m :
  discord_channel_id cfg = Some target ->
  sauce_guard env ctx target = false ->
  reference ctx = Some (ResolvedMessage m) ->
  image_in_command ctx url = false ->
  _get_image_attachments m = [] ->
  (exists r, image_resolver hlp env ctx url w = (Ok r, w)
             /\ Py.truthy r = false) /\
  sauce hlp cfg env ctx url w =
    (Ok tt, record w [Reply (basic_embed (lang "Global" "generic_error")
                               (lang "Sauce" "no_images")
                               (Some AVATAR_SILLY)) None]).
Proof.
  intros Hcfg Hguard Href Hin Hnone.
  assert (Hurl : Py.truthy url = false).
  { unfold image_in_command in Hin. by apply orb_false_iff in Hin as [? _]. }
  assert (Hres : image_resolver hlp env ctx url w = (Ok url, w)).
  { unfold image_resolver. rewrite Href, Hin. simpl.
    by rewrite Hnone. }
  split; [by exists url|].
  rewrite (sauce_image_resolver _ _ _ _ Hcfg Hguard).
  unfold bind. rewrite Hres, Hurl. reflexivity.
Qed.

End Resolver.


(** *** The disambiguation prompt *)

Lemma for_each_emit {A} (l : list A) (f : A -> Event) w :
  for_each l (fun x => emit (f x)) w = (Ok tt, record w (map f l)).
Proof.
  revert w. induction l as [|x l IH]; intros w; simpl.
  - unfold ret. by rewrite record_nil.
  - unfold bind, emit. rewrite IH. by rewrite record_record.
Qed.

Section Prompt.

Variable hlp : Helpers.
Variable env : Env.

Lemma index_range_length n : length (index_range n) = Nat.min n 10.
Proof. unfold index_range. apply length_seq. Qed.

(** Exactly min(n, 10) reactions are offered, numbered from 1. *)
Lemma offer_reactions items :
  offer hlp env items =
  ChannelSend (lang "Sauce" "multiple_images")
  :: map (fun index => AddReaction (prompt_id env) (keycap_emoji hlp index))
       (seq 1 (Nat.min (length items) 10))
  ++ [WaitForReaction 60].
Proof. reflexivity. Qed.

(** No reaction passes the check before the timeout: both messages are
    deleted and the prompt returns [None]. *)
Lemma _index_prompt_timeout ctx items w :
  List.find (prompt_check hlp env ctx items) (reactions env) = None ->
  _index_prompt hlp env ctx items w =
  (Ok None, record w (offer hlp env items ++ [Delete (message_id (message ctx));
                                     Delete (prompt_id env)])).
Proof.
  intros Hfind. unfold _index_prompt, bind.
  unfold emit at 1. rewrite for_each_emit. unfold emit. fold (index_range (length items)).
  fold (prompt_check hlp env ctx items). rewrite Hfind. unfold ret.
  rewrite !record_record. unfold offer. simpl.
  by rewrite <- !app_assoc.
Qed.

(** A reaction passes the check: the prompt is deleted and the item at the
    index the reaction stands for is returned. *)
Lemma _index_prompt_selected ctx items w reaction user item :
  List.find (prompt_check hlp env ctx items) (reactions env) = Some (reaction, user) ->
  Py.index items (keycap_to_int hlp reaction - 1) = Some item ->
  _index_prompt hlp env ctx items w =
  (Ok (Some item), record w (offer hlp env items ++ [Delete (prompt_id env)])).
Proof.
  intros Hfind Hitem. unfold _index_prompt, bind.
  unfold emit at 1. rewrite for_each_emit. unfold emit. fold (index_range (length items)).
  fold (prompt_check hlp env ctx items). rewrite Hfind, Hitem. unfold ret.
  rewrite !record_record. unfold offer. simpl.
  by rewrite <- !app_assoc.
Qed.

(** The reaction with the k-th offered emoji returns the k-th item, when
    [keycap_to_int] reads the number of a keycap emoji back. *)
Lemma _index_prompt_kth ctx items w reaction user k item :
  List.find (prompt_check hlp env ctx items) (reactions env) = Some (reaction, user) ->
  keycap_to_int hlp reaction = Z.of_nat (S k) ->
  items !! k = Some item ->
  _index_prompt hlp env ctx items w =
  (Ok (Some item), record w (offer hlp env items ++ [Delete (prompt_id env)])).
Proof.
  intros Hfind Hk Hitem. apply (_index_prompt_selected _ _ _ _ _ _ Hfind).
  rewrite Hk. unfold Py.index.
  replace (Z.of_nat (S k) - 1)%Z with (Z.of_nat k) by lia.
  destruct (Z.leb_spec 0 (Z.of_nat k)); [|lia].
  by rewrite Nat2Z.id.
Qed.

(** The reply path after a timeout: [attachment.url] on [None]. *)
Lemma sauce_reference_timeout ctx m url w :
  (1 < length (_get_image_attachments m))%nat ->
  List.find (prompt_check hlp env ctx (_get_image_attachments m)) (reactions env)
    = None ->
  fst (sauce_reference hlp env ctx (ResolvedMessage m) url w)
    = Raised AttributeError.
Proof.
  intros Hlen Hfind. unfold sauce_reference.
  destruct (_get_image_attachments m) as [|a l] eqn:Hatt; [simpl in Hlen; lia|].
  cbn [nonempty].
  destruct (Nat.ltb_spec 1 (length (a :: l))); [|lia].
  unfold bind. by rewrite (_index_prompt_timeout _ _ _ Hfind).
Qed.

(** The channel search after a timeout: [_get_attachment_image(None)]. *)
Lemma _get_last_image_post_timeout ctx m rest w :
  (1 < length (_get_image_attachments m))%nat ->
  List.find (prompt_check hlp env ctx (_get_image_attachments m)) (reactions env)
    = None ->
  fst (_get_last_image_post_loop hlp env ctx (m :: rest) w)
    = Raised AttributeError.
Proof.
  intros Hlen Hfind. simpl.
  destruct (_get_image_attachments m) as [|a l] eqn:Hatt; [simpl in Hlen; lia|].
  cbn [nonempty].
  destruct (Nat.ltb_spec 1 (length (a :: l))); [|lia].
  unfold bind. by rewrite (_index_prompt_timeout _ _ _ Hfind).
Qed.

End Prompt.

(** *** The lookup service and the cache *)

Lemma containers_getattr_class_name c :
  containers_getattr (class_name c) = Some (Build_SauceResult c).
Proof. by destruct c. Qed.

Section Lookup.

Variable hlp : Helpers.
Variable cfg : Config.
Variable env : Env.

(** The key [_get_sauce] searches with: the guild's own, else the shared. *)
Lemma _get_sauce_hit ctx u w row container :
  cache w !! u = Some row ->
  containers_getattr (cache_result_class row) = Some container ->
  _get_sauce cfg env ctx u w =
  (Ok (Some (container (cache_header row) (cache_result row))),
   snd (SauceCache.fetch u (snd (SauceQueries.log ctx u (now env) w)))).
Proof.
  intros Hrow Hclass. unfold _get_sauce, bind. simpl.
  by rewrite Hrow, Hclass.
Qed.

(** C5: a result written to the cache under a url is what a fetch of that
    url is rebuilt to: the row holds the name of the result's class, its
    header and its payload, the name is resolved to the class, and the class
    applied to header and payload is the result, equal in all fields; the
    next lookup of the url returns it. *)
Theorem cache_round_trip ctx u sauce time w :
  let w1 := snd (SauceCache.add_or_update u sauce time w) in
  (exists row container,
     fst (SauceCache.fetch u w1) = Ok (Some row) /\
     containers_getattr (cache_result_class row) = Some container /\
     container (cache_header row) (cache_result row) = sauce) /\
  fst (_get_sauce cfg env ctx u w1) = Ok (Some sauce).
Proof.
  intros w1.
  assert (Hrow : cache w1 !! u =
                 Some {| cache_result_class := class_name (result_class sauce);
                         cache_header := header sauce;
                         cache_result := data sauce;
                         created_at := time |}).
  { unfold w1. simpl. apply lookup_insert_eq. }
  split.
  - eexists _, (Build_SauceResult (result_class sauce)).
    split; [unfold SauceCache.fetch; cbn [fst]; by rewrite Hrow|].
    split; [apply containers_getattr_class_name|by destruct sauce].
  - rewrite (_get_sauce_hit _ _ _ _ _ Hrow
               (containers_getattr_class_name (result_class sauce))).
    simpl. by destruct sauce.
Qed.

(** C6: every run of [_get_sauce] first appends the query (url, user,
    guild) to the log, then reads the cache; the entry is in the log at the
    end whether the run returns or raises; on a hit nothing else is asked
    of the outside, on a miss one remote search follows (and the store of
    its first result, when there is one). *)
Theorem get_sauce_logs_then_reads_cache ctx u w :
  let q := {| user_id := author (message ctx); guild_id := guild ctx;
              query_url := u; timestamp := now env |} in
  let w' := snd (_get_sauce cfg env ctx u w) in
  queries w' = (queries w ++ [q])%list /\
  exists rest,
    trace w' = (trace w ++ LogQuery q :: CacheFetch u :: rest)%list /\
    match cache w !! u with
    | Some _ => rest = []
    | None => exists key, rest = [RemoteSearch key u]
                          \/ rest = [RemoteSearch key u; CacheStore u]
    end.
Proof.
  intros q w'. unfold w', _get_sauce, bind. simpl.
  destruct (cache w !! u) as [row|] eqn:Hrow.
  - destruct (containers_getattr (cache_result_class row)); simpl;
      (split; [reflexivity|]); exists []; by rewrite <- app_assoc.
  - set (key := if Py.truthy (servers w !! guild ctx)
                then servers w !! guild ctx else saucenao_api_key cfg).
    destruct (from_url env key u) as [search|e]; simpl.
    + destruct (head (results search)); simpl; (split; [reflexivity|]).
      * exists [RemoteSearch key u; CacheStore u].
        split; [by rewrite <- !app_assoc|]. exists key. by right.
      * exists [RemoteSearch key u].
        split; [by rewrite <- !app_assoc|]. exists key. by left.
    + split; [reflexivity|]. exists [RemoteSearch key u].
      split; [by rewrite <- !app_assoc|]. exists key. by left.
Qed.

(** A miss that finds a result stores it: the next lookup of the url
    returns the same result without a remote search. *)
Lemma _get_sauce_twice ctx ctx' u w search sauce :
  cache w !! u = None ->
  from_url env
    (if Py.truthy (servers w !! guild ctx) then servers w !! guild ctx
     else saucenao_api_key cfg) u = Ok search ->
  head (results search) = Some sauce ->
  let w1 := snd (_get_sauce cfg env ctx u w) in
  fst (_get_sauce cfg env ctx u w) = Ok (Some sauce) /\
  fst (_get_sauce cfg env ctx' u w1) = Ok (Some sauce) /\
  exists q, trace (snd (_get_sauce cfg env ctx' u w1))
            = (trace w1 ++ [LogQuery q; CacheFetch u])%list.
Proof.
  intros Hmiss Hsearch Hhead w1.
  assert (Hrun : _get_sauce cfg env ctx u w =
                 (Ok (Some sauce),
                  snd (SauceCache.add_or_update u sauce (now env)
                    (record (snd (SauceCache.fetch u
                       (snd (SauceQueries.log ctx u (now env) w))))
                       [RemoteSearch
                          (if Py.truthy (servers w !! guild ctx)
                           then servers w !! guild ctx
                           else saucenao_api_key cfg) u])))).
  { unfold _get_sauce, bind. simpl. by rewrite Hmiss, Hsearch, Hhead. }
  split; [by rewrite Hrun|].
  assert (Hrow : cache w1 !! u =
                 Some {| cache_result_class := class_name (result_class sauce);
                         cache_header := header sauce;
                         cache_result := data sauce;
                         created_at := now env |}).
  { unfold w1. rewrite Hrun. simpl. apply lookup_insert_eq. }
  rewrite (_get_sauce_hit ctx' _ _ _ _ Hrow
             (containers_getattr_class_name (result_class sauce))).
  simpl. split; [by destruct sauce|].
  eexists. by rewrite <- app_assoc.
Qed.

(** *** The member limit *)

Lemma _check_member_limited_disabled ctx w :
  member_api_limit cfg = None \/ member_api_limit cfg = Some 0%Z ->
  _check_member_limited cfg ctx w = (Ok false, w).
Proof. intros [H|H]; unfold _check_member_limited; by rewrite H. Qed.

Lemma _check_member_limited_exceeded ctx w n :
  member_api_limit cfg = Some n ->
  (0 < n)%Z ->
  (n <= SauceQueries.logged (author (message ctx)) (queries w))%Z ->
  _check_member_limited cfg ctx w = (Ok true, w).
Proof.
  intros Hn Hpos Hcount. unfold _check_member_limited. rewrite Hn. simpl.
  destruct (Z.eqb_spec n 0); [lia|].
  unfold bind, SauceQueries.user_count, ret.
  by destruct (Z.leb_spec n
                 (SauceQueries.logged (author (message ctx)) (queries w)));
    [|lia].
Qed.

Lemma sauce_checks_limited ctx image u w :
  validate_url hlp u = true ->
  _check_member_limited cfg ctx w = (Ok true, w) ->
  sauce_checks hlp cfg env ctx image u w =
  (Ok tt, record w [Reply (basic_embed (lang "Global" "generic_error")
                             (lang "Sauce" "member_api_limit_exceeded")
                             (Some AVATAR_SILLY)) None]).
Proof.
  intros Hvalid Hcheck. unfold sauce_checks. rewrite Hvalid. simpl.
  unfold bind. by rewrite Hcheck.
Qed.

(** The whole command: whatever way the url was found, a limited member is
    answered member_api_limit_exceeded and nothing more happens. *)
Lemma sauce_member_limited ctx url w target u w1 n :
  discord_channel_id cfg = Some target ->
  sauce_guard env ctx target = false ->
  image_resolver hlp env ctx url w = (Ok (Some u), w1) ->
  u <> "" ->
  validate_url hlp u = true ->
  member_api_limit cfg = Some n ->
  (0 < n)%Z ->
  (n <= SauceQueries.logged (author (message ctx)) (queries w1))%Z ->
  sauce hlp cfg env ctx url w =
  (Ok tt, record w1 [Reply (basic_embed (lang "Global" "generic_error")
                              (lang "Sauce" "member_api_limit_exceeded")
                              (Some AVATAR_SILLY)) None]).
Proof.
  intros Hcfg Hguard Hres Hu Hvalid Hn Hpos Hcount.
  rewrite (sauce_image_resolver _ _ _ _ _ _ _ Hcfg Hguard).
  unfold bind. rewrite Hres, (truthy_Some _ Hu). simpl.
  apply sauce_checks_limited; [exact Hvalid|].
  by apply (_check_member_limited_exceeded _ _ n).
Qed.

(** C4: with the member limit unset or 0 the check answers "not limited",
    whatever the log holds; with a limit n > 0 and at least n logged queries
    of the author it answers "limited", and [sauce], having found a valid
    url, answers member_api_limit_exceeded and returns: the trace grows by
    that reply alone and the stores are untouched, so the lookup service was
    not run. *)
Theorem member_limit_rejects_before_lookup ctx image u w :
  (member_api_limit cfg = None \/ member_api_limit cfg = Some 0%Z ->
   _check_member_limited cfg ctx w = (Ok false, w)) /\
  (forall n : Z,
     member_api_limit cfg = Some n ->
     (0 < n)%Z ->
     (n <= SauceQueries.logged (author (message ctx)) (queries w))%Z ->
     _check_member_limited cfg ctx w = (Ok true, w) /\
     (validate_url hlp u = true ->
      sauce_checks hlp cfg env ctx image u w =
      (Ok tt, record w [Reply (basic_embed (lang "Global" "generic_error")
                                 (lang "Sauce" "member_api_limit_exceeded")
                                 (Some AVATAR_SILLY)) None]))).
Proof.
  split; [apply _check_member_limited_disabled|].
  intros n Hn Hpos Hcount.
  pose proof (_check_member_limited_exceeded ctx w n Hn Hpos Hcount) as Hcheck.
  split; [exact Hcheck|].
  intros Hvalid. by apply sauce_checks_limited.
Qed.

End Lookup.

(** *** The preview reconciler *)

Section Preview.

Variable hlp : Helpers.
Variable cfg : Config.
Variable env : Env.

(** The three early returns of [_video_preview]: for an anime result, when
    the search of the secondary service answers with no match, or raises,
    or its top match has another anilist id than the result,
    [_video_preview] returns no preview and raises nothing, and [sauce]
    still replies with the result, without a file. *)
Theorem preview_failure_is_not_propagated ctx image u sauce w :
  result_class sauce = AnimeSource ->
  tracemoe_search env u = Ok []
  \/ (exists e, tracemoe_search env u = Raised e)
  \/ (exists top others,
        tracemoe_search env u = Ok (top :: others) /\
        sauce_anilist_id env sauce <> Some (anilist_id top)) ->
  let asked := if Py.truthy (tracemoe_token cfg)
               then [TraceMoeSearch u] else [] in
  _video_preview cfg env sauce u w = (Ok (None, false), record w asked) /\
  sauce_reply hlp cfg env ctx image u (Some sauce) w =
  (Ok tt,
   record w (asked ++ Reply (sauce_embed sauce) None ::
             (if negb image && negb (bool_decide (is_Some (reference ctx)))
              then [Delete (message_id (message ctx))] else []))).
Proof.
  intros Hanime Hcase asked.
  assert (Hpreview : _video_preview cfg env sauce u w
                     = (Ok (None, false), record w asked)).
  { unfold _video_preview, asked.
    destruct (Py.truthy (tracemoe_token cfg)); simpl.
    - unfold bind, emit.
      destruct Hcase as [H|[[e H]|(top & others & H & Hid)]]; rewrite H;
        try reflexivity.
      destruct (load_ids env sauce); [|reflexivity].
      by rewrite bool_decide_eq_false_2.
    - unfold ret. by rewrite record_nil. }
  split; [exact Hpreview|].
  unfold sauce_reply. rewrite Hanime.
  rewrite bool_decide_eq_true_2 by reflexivity.
  unfold bind at 1. unfold bind at 1. rewrite Hpreview. simpl.
  destruct (negb image && negb (bool_decide (is_Some (reference ctx))));
    unfold bind, emit, ret; rewrite !record_record;
    by rewrite <- ?app_assoc.
Qed.

(** The clip download of line 440 is after the [try] of lines 423-430:
    when the two services agree on the anilist id and the download raises,
    [_video_preview] raises the same exception, and the reply block of
    [sauce] ends with it before anything is replied. *)
Lemma clip_failure_leaves_video_preview ctx image u sauce w top others e :
  result_class sauce = AnimeSource ->
  Py.truthy (tracemoe_token cfg) = true ->
  tracemoe_search env u = Ok (top :: others) ->
  load_ids env sauce = true ->
  sauce_anilist_id env sauce = Some (anilist_id top) ->
  video_preview_natural env (top :: others) = Raised e ->
  _video_preview cfg env sauce u w
  = (Raised e, record w [TraceMoeSearch u; TraceMoePreview]) /\
  sauce_reply hlp cfg env ctx image u (Some sauce) w
  = (Raised e, record w [TraceMoeSearch u; TraceMoePreview]).
Proof.
  intros Hanime Htoken Hsearch Hids Hsame Hclip.
  assert (Hpreview : _video_preview cfg env sauce u w
                     = (Raised e, record w [TraceMoeSearch u; TraceMoePreview])).
  { unfold _video_preview. rewrite Htoken, Hsearch, Hids. simpl.
    rewrite bool_decide_eq_true_2 by exact Hsame. simpl.
    rewrite Hclip. unfold bind, emit, raise. simpl.
    by rewrite record_record. }
  split; [exact Hpreview|].
  unfold sauce_reply. rewrite Hanime.
  rewrite bool_decide_eq_true_2 by reflexivity.
  unfold bind at 1. unfold bind at 1. by rewrite Hpreview.
Qed.

(** The lookup found a result: [sauce] goes on to the reply. *)
Lemma sauce_checks_found ctx image u w r w' :
  validate_url hlp u = true ->
  _check_member_limited cfg ctx w = (Ok false, w) ->
  _get_sauce cfg env ctx u w = (Ok r, w') ->
  sauce_checks hlp cfg env ctx image u w
  = sauce_reply hlp cfg env ctx image u r w'.
Proof.
  intros Hvalid Hlimit Hsauce. unfold sauce_checks. rewrite Hvalid. simpl.
  unfold bind at 1. rewrite Hlimit.
  unfold bind, attempt. by rewrite Hsauce.
Qed.

End Preview.

(** *** The key registration *)

Section Registration.

Variable env : Env.

(** The four ways [apikey] ends. *)
Lemma apikey_outcomes ctx api_key w :
  let tested := [Delete (message_id (message ctx)); RemoteTest api_key] in
  apikey env ctx api_key w =
  if negb (_re_api_key_match api_key) then
    (Ok tt, record w [Delete (message_id (message ctx));
                      Send (basic_embed (lang "Global" "generic_error")
                              (lang "Sauce" "bad_api_key") None)])
  else if negb (success (test env api_key)) then
    (Ok tt, record w (tested ++
                      [Send (basic_embed (lang "Global" "generic_error")
                              (lang "Sauce" "api_offline") None)]))
  else if negb (bool_decide (account_type (test env api_key)
                             = ACCOUNT_ENHANCED)) then
    (Ok tt, record w (tested ++
                      [Send (basic_embed (lang "Global" "generic_error")
                              (lang "Sauce" "api_free") None)]))
  else
    (Ok tt,
     {| queries := queries w; cache := cache w;
        servers := <[guild ctx := api_key]> (servers w);
        trace := (trace w ++ tested ++
                  [Register (guild ctx) api_key;
                   Send (basic_embed (lang "Global" "generic_success")
                           (lang "Sauce" "registered_api_key") None)])%list |}).
Proof.
  intros tested. unfold apikey, bind, emit, send_embed, emit.
  destruct (_re_api_key_match api_key); simpl.
  - destruct (success (test env api_key)); simpl.
    + destruct (bool_decide (account_type (test env api_key)
                              = ACCOUNT_ENHANCED)); simpl.
      * unfold record. simpl. by rewrite <- !app_assoc.
      * by rewrite !record_record.
    + by rewrite !record_record.
  - by rewrite !record_record.
Qed.

(** In the three rejections the stores are the ones [apikey] started
    from. *)
Lemma apikey_rejection_keeps_key ctx api_key w :
  _re_api_key_match api_key = false
  \/ success (test env api_key) = false
  \/ account_type (test env api_key) <> ACCOUNT_ENHANCED ->
  servers (snd (apikey env ctx api_key w)) = servers w.
Proof.
  intros Hcase. rewrite apikey_outcomes.
  destruct (_re_api_key_match api_key); simpl; [|reflexivity].
  destruct (success (test env api_key)); simpl; [|reflexivity].
  destruct Hcase as [H|[H|H]]; try discriminate.
  by rewrite bool_decide_eq_false_2.
Qed.

(** A string of exactly 40 alphanumeric characters has the format. *)
Lemma _re_api_key_match_40 s :
  String.length s = 40%nat ->
  forallb Py.is_alnum (Py.chars s) = true ->
  _re_api_key_match s = true.
Proof.
  intros Hlen Halnum. unfold _re_api_key_match, Py.before_dollar.
  destruct (Py.endswith s (String Py.LF "")); simpl;
    by rewrite Hlen, Halnum.
Qed.

End Registration.

(** *** The channel search *)

Section History.

Variable hlp : Helpers.
Variable env : Env.

(** A message with a single qualifying attachment, found by the channel
    search, yields [_get_attachment_image] of it: the proxy url with the
    format parameter for a video. *)
Lemma _get_last_image_post_single ctx m rest a w :
  _get_image_attachments m = [a] ->
  _get_last_image_post_loop hlp env ctx (m :: rest) w
  = (Ok (_get_attachment_image a), w).
Proof. intros Hatt. simpl. by rewrite Hatt. Qed.

Lemma _get_attachment_image_video a :
  Py.truthy_str (attachment_url a) = true ->
  Py.endswith_any (attachment_url a)
    [".jpg"; ".png"; ".gif"; ".jpeg"; ".webp"] = false ->
  Py.endswith_any (attachment_url a) [".mp4"; ".webm"; ".mov"] = true ->
  _get_attachment_image a = Some (attachment_proxy_url a ++ "?format=jpeg").
Proof.
  intros Hurl Himage Hvideo. unfold _get_attachment_image.
  by rewrite Hurl, Himage, Hvideo.
Qed.

(** A reply to a message with a single qualifying attachment yields the
    [url] of the attachment as it is. *)
Lemma sauce_reference_single ctx m a url w :
  _get_image_attachments m = [a] ->
  sauce_reference hlp env ctx (ResolvedMessage m) url w
  = (Ok (Some (attachment_url a)), w).
Proof. intros Hatt. unfold sauce_reference. by rewrite Hatt. Qed.

End History.

(** ** Concrete runs *)

(** C10 at a command in channel 300, with "100,200" configured. *)
Lemma sauce_guard_returns_silently_witness :
  Py.str_in (Py.str 300) "100,200" = false /\
  sauce Sample.helpers Sample.config Sample.env
    (Sample.command_in 300 [Sample.b_jpg] None) (Some "https://x/a.png")
    Sample.world
  = (Ok tt, Sample.world).
Proof.
  split; [vm_compute; reflexivity|].
  apply (sauce_guard_returns_silently Sample.helpers Sample.config Sample.env
           (Sample.command_in 300 [Sample.b_jpg] None)
           (Some "https://x/a.png") Sample.world "100,200").
  - reflexivity.
  - vm_compute; reflexivity.
Defined.

(** C1 as stated fails: the url https://x/a.png with the attachment b.jpg
    on the same message resolves to the url, not to the attachment, and it
    is the url that is looked up. *)
Lemma explicit_url_beats_attachment :
  _get_image_attachments (message (Sample.command [Sample.b_jpg] None))
    = [Sample.b_jpg] /\
  fst (image_resolver Sample.helpers Sample.env
         (Sample.command [Sample.b_jpg] None) (Some "https://x/a.png")
         Sample.world)
    = Ok (Some "https://x/a.png") /\
  fst (image_resolver Sample.helpers Sample.env
         (Sample.command [Sample.b_jpg] None) (Some "https://x/a.png")
         Sample.world)
    <> Ok (Some (attachment_url Sample.b_jpg)) /\
  trace (snd (sauce Sample.helpers Sample.config Sample.env
                (Sample.command [Sample.b_jpg] None) (Some "https://x/a.png")
                Sample.world))
    = [LogQuery {| user_id := 7; guild_id := 5;
                   query_url := "https://x/a.png"; timestamp := 0 |};
       CacheFetch "https://x/a.png";
       RemoteSearch (Some "shared") "https://x/a.png";
       Reply (not_found_embed "https://x/a.png") None].
Proof.
  repeat split; try (vm_compute; reflexivity).
  vm_compute. discriminate.
Qed.

(** C1 as amended, at the same invocation. *)
Lemma explicit_url_is_resolved_witness :
  image_resolver Sample.helpers Sample.env
    (Sample.command [Sample.b_jpg] None) (Some "https://x/a.png") Sample.world
  = (Ok (Some "https://x/a.png"), Sample.world) /\
  sauce Sample.helpers Sample.config Sample.env
    (Sample.command [Sample.b_jpg] None) (Some "https://x/a.png") Sample.world
  = sauce_checks Sample.helpers Sample.config Sample.env
      (Sample.command [Sample.b_jpg] None) true "https://x/a.png"
      Sample.world.
Proof.
  apply (explicit_url_is_resolved Sample.helpers Sample.config Sample.env
           (Sample.command [Sample.b_jpg] None) "https://x/a.png"
           Sample.world "100,200").
  - discriminate.
  - reflexivity.
  - vm_compute; reflexivity.
Defined.

(** C2 at a reply to a message without attachments, in a channel whose
    newest message has an image. *)
Lemma reply_without_image_fails_at_once_witness :
  sauce Sample.helpers Sample.config
    (Sample.env_with [Sample.post [Sample.b_jpg]] [] [] (Ok []))
    (Sample.command [] (Some (ResolvedMessage (Sample.post [])))) None
    Sample.world
  = (Ok tt, record Sample.world [Sample.no_images]).
Proof.
  apply (reply_without_image_fails_at_once Sample.helpers Sample.config
           (Sample.env_with [Sample.post [Sample.b_jpg]] [] [] (Ok []))
           (Sample.command [] (Some (ResolvedMessage (Sample.post []))))
           None Sample.world "100,200" (Sample.post [])).
  - reflexivity.
  - vm_compute; reflexivity.
  - reflexivity.
  - reflexivity.
  - reflexivity.
Defined.

(** C3: three qualifying attachments are offered as three numbered
    reactions and the second emoji selects the second attachment; but with
    no reaction before the timeout the prompt, having deleted both
    messages, returns [None], and both callers then raise [AttributeError]:
    the reply path on [attachment.url], the channel search inside
    [_get_attachment_image]. *)
Theorem prompt_timeout_raises :
  image_resolver Sample.helpers
    (Sample.env_with []
       [({| reaction_message := 900; emoji := "2#" |}, 7%N)] [] (Ok []))
    (Sample.command []
       (Some (ResolvedMessage
                (Sample.post [Sample.b_jpg; Sample.c_png; Sample.v_mp4]))))
    None Sample.world
  = (Ok (Some (attachment_url Sample.c_png)),
     record Sample.world
       [ChannelSend (lang "Sauce" "multiple_images");
        AddReaction 900 "1#"; AddReaction 900 "2#"; AddReaction 900 "3#";
        WaitForReaction 60; Delete 900]) /\
  sauce Sample.helpers Sample.config Sample.env
    (Sample.command []
       (Some (ResolvedMessage (Sample.post [Sample.b_jpg; Sample.c_png]))))
    None Sample.world
  = (Raised AttributeError,
     record Sample.world
       [ChannelSend (lang "Sauce" "multiple_images");
        AddReaction 900 "1#"; AddReaction 900 "2#";
        WaitForReaction 60; Delete 10; Delete 900]) /\
  sauce Sample.helpers Sample.config
    (Sample.env_with [Sample.post [Sample.b_jpg; Sample.c_png]] [] [] (Ok []))
    (Sample.command [] None) None Sample.world
  = (Raised AttributeError,
     record Sample.world
       [History 50; ChannelSend (lang "Sauce" "multiple_images");
        AddReaction 900 "1#"; AddReaction 900 "2#";
        WaitForReaction 60; Delete 10; Delete 900]).
Proof. repeat split; vm_compute; reflexivity. Qed.

(** C7: a video found by the channel search is translated to its proxy url
    with the format parameter, but a video on the message replied to is
    resolved to its raw [url], and that url is what is looked up. *)
Theorem reply_to_video_resolves_raw_url :
  image_resolver Sample.helpers
    (Sample.env_with [Sample.post [Sample.v_mp4]] [] [] (Ok []))
    (Sample.command [] None) None Sample.world
  = (Ok (Some "https://media/v.mp4?format=jpeg"),
     record Sample.world [History 50]) /\
  _get_image_attachments (Sample.post [Sample.v_mp4]) = [Sample.v_mp4] /\
  image_resolver Sample.helpers Sample.env
    (Sample.command [] (Some (ResolvedMessage (Sample.post [Sample.v_mp4]))))
    None Sample.world
  = (Ok (Some "https://cdn/v.mp4"), Sample.world) /\
  trace (snd (sauce Sample.helpers Sample.config Sample.env
                (Sample.command []
                   (Some (ResolvedMessage (Sample.post [Sample.v_mp4]))))
                None Sample.world))
  = [LogQuery {| user_id := 7; guild_id := 5;
                 query_url := "https://cdn/v.mp4"; timestamp := 0 |};
     CacheFetch "https://cdn/v.mp4";
     RemoteSearch (Some "shared") "https://cdn/v.mp4";
     Reply (not_found_embed "https://cdn/v.mp4") None].
Proof. repeat split; vm_compute; reflexivity. Qed.

(** C4 at a limit of 5 with five logged queries of the author, and at no
    limit with the same log. *)
Lemma member_limit_rejects_before_lookup_witness :
  _check_member_limited Sample.config (Sample.command [] None)
    Sample.busy_world = (Ok false, Sample.busy_world) /\
  sauce_checks Sample.helpers (Sample.config_with (Some 5%Z) None) Sample.env
    (Sample.command [] None) true "https://x/a.png" Sample.busy_world
  = (Ok tt,
     record Sample.busy_world
       [Reply (basic_embed (lang "Global" "generic_error")
                 (lang "Sauce" "member_api_limit_exceeded")
                 (Some AVATAR_SILLY)) None]).
Proof.
  split.
  - apply (proj1 (member_limit_rejects_before_lookup Sample.helpers
                    Sample.config Sample.env (Sample.command [] None)
                    true "https://x/a.png" Sample.busy_world)).
    left. reflexivity.
  - apply (proj2 (member_limit_rejects_before_lookup Sample.helpers
                    (Sample.config_with (Some 5%Z) None) Sample.env
                    (Sample.command [] None) true "https://x/a.png"
                    Sample.busy_world) 5%Z).
    + reflexivity.
    + lia.
    + vm_compute. discriminate.
    + reflexivity.
Defined.

(** C8: forty alphanumeric characters followed by a line feed pass the
    format check of [apikey]; the credential test is run on the 41
    characters and they are stored as the key of the guild. *)
Theorem apikey_accepts_trailing_newline :
  String.length Sample.key41 = 41%nat /\
  _re_api_key_match Sample.key41 = true /\
  servers (snd (apikey Sample.env (Sample.command [] None) Sample.key41
                  Sample.world)) !! 5%N = Some Sample.key41 /\
  trace (snd (apikey Sample.env (Sample.command [] None) Sample.key41
                Sample.world))
  = [Delete 10; RemoteTest Sample.key41; Register 5 Sample.key41;
     Send (basic_embed (lang "Global" "generic_success")
             (lang "Sauce" "registered_api_key") None)].
Proof. repeat split; vm_compute; reflexivity. Qed.

(** The early returns at a result with anilist id 100 and a top match with
    id 200. *)
Lemma preview_failure_is_not_propagated_witness :
  sauce_reply Sample.helpers (Sample.config_with None (Some "token"))
    (Sample.env_with [] [] [Sample.anime]
       (Ok [{| anilist_id := 200; is_adult := false |}]))
    (Sample.command [] None) true "https://x/a.png" (Some Sample.anime)
    Sample.world
  = (Ok tt,
     record Sample.world
       [TraceMoeSearch "https://x/a.png";
        Reply (sauce_embed Sample.anime) None]).
Proof.
  apply (preview_failure_is_not_propagated Sample.helpers
           (Sample.config_with None (Some "token"))
           (Sample.env_with [] [] [Sample.anime]
              (Ok [{| anilist_id := 200; is_adult := false |}]))
           (Sample.command [] None) true "https://x/a.png" Sample.anime
           Sample.world).
  - reflexivity.
  - right. right.
    exists {| anilist_id := 200; is_adult := false |}, [].
    split; [reflexivity|]. simpl. discriminate.
Defined.

(** The whole command on that input: the result is replied without a
    file; with a top match of id 100 the clip is attached. *)
Example mismatch_withholds_preview :
  trace (snd (sauce Sample.helpers (Sample.config_with None (Some "token"))
                (Sample.env_with [] [] [Sample.anime]
                   (Ok [{| anilist_id := 200; is_adult := false |}]))
                (Sample.command [] None) (Some "https://x/a.png")
                Sample.world))
  = [LogQuery {| user_id := 7; guild_id := 5;
                 query_url := "https://x/a.png"; timestamp := 0 |};
     CacheFetch "https://x/a.png";
     RemoteSearch (Some "shared") "https://x/a.png";
     CacheStore "https://x/a.png";
     TraceMoeSearch "https://x/a.png";
     Reply (sauce_embed Sample.anime) None] /\
  trace (snd (sauce Sample.helpers (Sample.config_with None (Some "token"))
                (Sample.env_with [] [] [Sample.anime]
                   (Ok [{| anilist_id := 100; is_adult := false |}]))
                (Sample.command [] None) (Some "https://x/a.png")
                Sample.world))
  = [LogQuery {| user_id := 7; guild_id := 5;
                 query_url := "https://x/a.png"; timestamp := 0 |};
     CacheFetch "https://x/a.png";
     RemoteSearch (Some "shared") "https://x/a.png";
     CacheStore "https://x/a.png";
     TraceMoeSearch "https://x/a.png";
     TraceMoePreview;
     Reply (sauce_embed Sample.anime)
       (Some {| file_bytes := [Byte.x00];
                filename := "some_show_preview.mp4" |})].
Proof. split; vm_compute; reflexivity. Qed.

(** C9: the preview does propagate a failure of the secondary service.
    Only the search is inside the [try] of lines 423-430; the download of
    the clip in line 440 is after it.  For the anime result with anilist
    id 100, a top match with the same id and a download that raises [e],
    whatever [e] is, [_video_preview] raises [e], and [sauce], having
    logged the query and stored the result, ends with [e] and replies
    nothing. *)
Theorem clip_download_failure_propagates e :
  _video_preview (Sample.config_with None (Some "token"))
    (Cases.env_clip_failing e) Sample.anime "https://x/a.png" Sample.world
  = (Raised e,
     record Sample.world [TraceMoeSearch "https://x/a.png"; TraceMoePreview]) /\
  fst (sauce Sample.helpers (Sample.config_with None (Some "token"))
         (Cases.env_clip_failing e) (Sample.command [] None)
         (Some "https://x/a.png") Sample.world)
  = Raised e /\
  trace (snd (sauce Sample.helpers (Sample.config_with None (Some "token"))
                (Cases.env_clip_failing e) (Sample.command [] None)
                (Some "https://x/a.png") Sample.world))
  = [LogQuery {| user_id := 7; guild_id := 5;
                 query_url := "https://x/a.png"; timestamp := 0 |};
     CacheFetch "https://x/a.png";
     RemoteSearch (Some "shared") "https://x/a.png";
     CacheStore "https://x/a.png";
     TraceMoeSearch "https://x/a.png";
     TraceMoePreview].
Proof. repeat split; vm_compute; reflexivity. Qed.

(** ** Further properties *)

(** *** Coroutines that only talk *)

Lemma chat_only_ret {A} (a : A) : chat_only (ret a).
Proof. intros w. exists []. simpl. by rewrite record_nil. Qed.

Lemma chat_only_raise {A} (e : Exn) : chat_only (@raise A e).
Proof. intros w. exists []. simpl. by rewrite record_nil. Qed.

Lemma chat_only_emit (e : Event) : chat_only (emit e).
Proof. intros w. by exists [e]. Qed.

Lemma chat_only_bind {A B} (c : M A) (k : A -> M B) :
  chat_only c -> (forall a, chat_only (k a)) -> chat_only (bind c k).
Proof.
  intros Hc Hk w. unfold bind. destruct (Hc w) as [evs1 H1].
  destruct (c w) as [[a|e] w1]; simpl in H1; subst w1.
  - destruct (Hk a (record w evs1)) as [evs2 H2].
    exists (evs1 ++ evs2)%list. by rewrite H2, record_record.
  - by exists evs1.
Qed.

Lemma chat_only_for_each {A} (l : list A) (body : A -> M unit) :
  (forall x, chat_only (body x)) -> chat_only (for_each l body).
Proof.
  intros Hbody. induction l as [|x l IH]; simpl.
  - apply chat_only_ret.
  - apply chat_only_bind; [apply Hbody|intros _; exact IH].
Qed.

Ltac chat :=
  repeat first
    [ apply chat_only_ret
    | apply chat_only_raise
    | apply chat_only_emit
    | apply chat_only_bind; [|intros ?]
    | apply chat_only_for_each; intros ?
    | match goal with
      | |- chat_only (match ?x with _ => _ end) => destruct x
      | |- chat_only (let _ := _ in _) => cbv zeta
      end ].

Section ChatOnly.

Variable hlp : Helpers.
Variable cfg : Config.
Variable env : Env.

Lemma chat_only_index_prompt ctx items :
  chat_only (_index_prompt hlp env ctx items).
Proof. unfold _index_prompt. chat. Qed.

Lemma chat_only_last_image_post_loop ctx messages :
  chat_only (_get_last_image_post_loop hlp env ctx messages).
Proof.
  induction messages as [|m rest IH]; simpl; [apply chat_only_ret|].
  destruct (nonempty (_get_image_attachments m)).
  - apply chat_only_bind; [|intros ?; chat].
    destruct (1 <? length (_get_image_attachments m))%nat;
      [apply chat_only_index_prompt|apply chat_only_ret].
  - destruct (IMAGE_URL_RE_match (content m)); [apply chat_only_ret|exact IH].
Qed.

Lemma chat_only_last_image_post ctx :
  chat_only (_get_last_image_post hlp env ctx).
Proof.
  unfold _get_last_image_post.
  apply chat_only_bind; [apply chat_only_emit|intros _].
  apply chat_only_last_image_post_loop.
Qed.

Lemma chat_only_sauce_reference ctx resolved url :
  chat_only (sauce_reference hlp env ctx resolved url).
Proof.
  unfold sauce_reference. destruct resolved; try apply chat_only_ret.
  destruct (nonempty (_get_image_attachments m)); [|apply chat_only_ret].
  destruct (1 <? length (_get_image_attachments m))%nat;
    [|apply chat_only_ret].
  apply chat_only_bind; [apply chat_only_index_prompt|intros ?; chat].
Qed.

Lemma chat_only_video_preview sauce u :
  chat_only (_video_preview cfg env sauce u).
Proof. unfold _video_preview. chat. Qed.

Lemma chat_only_sauce_reply ctx image u sauce :
  chat_only (sauce_reply hlp cfg env ctx image u sauce).
Proof.
  unfold sauce_reply. apply chat_only_bind; [|intros ?; chat].
  destruct sauce as [s|]; [|apply chat_only_ret].
  destruct (bool_decide (result_class s = AnimeSource)); [|apply chat_only_ret].
  apply chat_only_bind; [apply chat_only_video_preview|intros ?; chat].
Qed.

Lemma chat_only_sauce_except ctx e : chat_only (sauce_except ctx e).
Proof. unfold sauce_except, reply_error. destruct e; chat. Qed.

Lemma chat_only_image_resolver ctx url :
  chat_only (image_resolver hlp env ctx url).
Proof.
  unfold image_resolver.
  destruct (reference ctx) as [resolved|].
  - destruct (negb (image_in_command ctx url));
      [apply chat_only_sauce_reference|].
    destruct (Py.truthy url);
      [apply chat_only_ret|apply chat_only_last_image_post].
  - destruct (Py.truthy url);
      [apply chat_only_ret|apply chat_only_last_image_post].
Qed.

(** X1: finding the image never touches the stores: whatever the
    invocation, the reply and the channel hold, and whether a url is
    found, none is, or the prompt ends in an exception, the resolver leaves
    the query log, the cache and the guild keys as they were and only adds
    to the trace. *)
Theorem image_resolver_only_talks ctx url w :
  exists evs,
    snd (image_resolver hlp env ctx url w) = record w evs /\
    queries (snd (image_resolver hlp env ctx url w)) = queries w /\
    cache (snd (image_resolver hlp env ctx url w)) = cache w /\
    servers (snd (image_resolver hlp env ctx url w)) = servers w.
Proof.
  destruct (chat_only_image_resolver ctx url w) as [evs H].
  exists evs. by rewrite H.
Qed.

End ChatOnly.

(** *** What an invocation does to the stores *)

Lemma one_lookup_record env ctx w evs : one_lookup env ctx w (record w evs).
Proof. split; [by exists evs|]. split; [reflexivity|by left]. Qed.

Lemma one_lookup_after env ctx w evs w' :
  one_lookup env ctx (record w evs) w' -> one_lookup env ctx w w'.
Proof.
  intros ([evs' Ht] & Hs & Hq). unfold record in *. simpl in *.
  split; [exists (evs ++ evs')%list; by rewrite Ht, app_assoc|].
  split; [exact Hs|exact Hq].
Qed.

Lemma one_lookup_then env ctx w w1 evs :
  one_lookup env ctx w w1 -> one_lookup env ctx w (record w1 evs).
Proof.
  intros ([evs' Ht] & Hs & Hq). unfold one_lookup, record. simpl.
  split; [exists (evs' ++ evs)%list; by rewrite Ht, app_assoc|].
  split; [exact Hs|exact Hq].
Qed.

Section Stores.

Variable hlp : Helpers.
Variable cfg : Config.
Variable env : Env.

Lemma _check_member_limited_reads ctx w :
  exists limited, _check_member_limited cfg ctx w = (Ok limited, w).
Proof.
  unfold _check_member_limited.
  destruct (default 0 (member_api_limit cfg) =? 0)%Z; by eexists.
Qed.

Lemma one_lookup_get_sauce ctx u w :
  one_lookup env ctx w (snd (_get_sauce cfg env ctx u w)).
Proof.
  unfold _get_sauce, bind. simpl.
  destruct (cache w !! u) as [row|].
  - destruct (containers_getattr (cache_result_class row)); simpl;
      unfold one_lookup; simpl;
      (split; [eexists; rewrite <- ?app_assoc; reflexivity|]);
      (split; [reflexivity|]); right; exists u;
      (split; [reflexivity|]); by left.
  - destruct (from_url env _ u) as [search|e]; simpl.
    + destruct (head (results search)); simpl;
        unfold one_lookup; simpl;
        (split; [eexists; rewrite <- ?app_assoc; reflexivity|]);
        (split; [reflexivity|]); right; exists u;
        (split; [reflexivity|]).
      * right. by eexists.
      * by left.
    + unfold one_lookup; simpl.
      split; [eexists; rewrite <- ?app_assoc; reflexivity|].
      split; [reflexivity|]. right. exists u. split; [reflexivity|by left].
Qed.

Lemma one_lookup_sauce_checks ctx image u w :
  one_lookup env ctx w (snd (sauce_checks hlp cfg env ctx image u w)).
Proof.
  unfold sauce_checks.
  destruct (validate_url hlp u); simpl; [|apply one_lookup_record].
  unfold bind at 1.
  destruct (_check_member_limited_reads ctx w) as [limited ->].
  destruct limited; [apply one_lookup_record|].
  unfold bind, attempt.
  pose proof (one_lookup_get_sauce ctx u w) as Hlook.
  destruct (_get_sauce cfg env ctx u w) as [[sauce|e] w1]; simpl in Hlook.
  - destruct (chat_only_sauce_reply hlp cfg env ctx image u sauce w1)
      as [evs ->].
    by apply one_lookup_then.
  - destruct (chat_only_sauce_except ctx e w1) as [evs ->].
    by apply one_lookup_then.
Qed.

(** X2: whatever the invocation and whatever the outside answers, one run
    of [sauce] only extends the trace, never changes a guild key, logs at
    most one query, that of the author in the guild, and writes at most one
    cache row, under the url of the query it logged. *)
Theorem sauce_is_one_lookup ctx url w :
  one_lookup env ctx w (snd (sauce hlp cfg env ctx url w)).
Proof.
  destruct (discord_channel_id cfg) as [target|] eqn:Hcfg.
  - destruct (sauce_guard env ctx target) eqn:Hguard.
    + unfold sauce. rewrite Hcfg. unfold sauce_guard in Hguard.
      rewrite Hguard. simpl. rewrite <- (record_nil w) at 2.
      apply one_lookup_record.
    + rewrite (sauce_image_resolver hlp cfg env ctx url w target Hcfg Hguard).
      unfold bind.
      destruct (chat_only_image_resolver hlp env ctx url w) as [evs Hres].
      destruct (image_resolver hlp env ctx url w) as [[r|e] w1];
        simpl in Hres; subst w1.
      * apply one_lookup_after with evs.
        destruct (negb (Py.truthy r)); [apply one_lookup_record|].
        apply one_lookup_sauce_checks.
      * apply one_lookup_record.
  - unfold sauce. rewrite Hcfg. simpl. rewrite <- (record_nil w) at 2.
    apply one_lookup_record.
Qed.

End Stores.

(** *** The lookup inside the command *)

Section Answers.

Variable hlp : Helpers.
Variable cfg : Config.
Variable env : Env.

(** The world once a miss has been logged, fetched and searched. *)
Lemma _get_sauce_miss ctx u w :
  cache w !! u = None ->
  _get_sauce cfg env ctx u w =
  let w1 := {| queries := queries w ++ [query_of env ctx u];
               cache := cache w; servers := servers w;
               trace := trace w ++ [LogQuery (query_of env ctx u);
                                    CacheFetch u;
                                    RemoteSearch (key_of cfg ctx w) u] |} in
  match from_url env (key_of cfg ctx w) u with
  | Raised e => (Raised e, w1)
  | Ok search =>
      match head (results search) with
      | Some s => (Ok (Some s),
                   snd (SauceCache.add_or_update u s (now env) w1))
      | None => (Ok None, w1)
      end
  end.
Proof.
  intros Hmiss. unfold _get_sauce, bind, key_of, query_of. simpl.
  rewrite Hmiss.
  destruct (from_url env _ u) as [search|e];
    [destruct (head (results search))|];
    simpl; unfold record; simpl; rewrite <- ?app_assoc; reflexivity.
Qed.

(** X3: an exception of the lookup service never leaves [sauce] when it is
    one of the pysaucenao family: the query stays logged, the command
    message is deleted and one error reply is sent (api_limit_exceeded for
    both limits, rejected_api_key, no_images for an invalid image,
    api_offline for the rest); any other exception is raised again and
    nothing is sent. *)
Theorem lookup_errors_are_answered ctx image u w e :
  validate_url hlp u = true ->
  fst (_check_member_limited cfg ctx w) = Ok false ->
  cache w !! u = None ->
  from_url env (key_of cfg ctx w) u = Raised e ->
  let asked := [LogQuery (query_of env ctx u); CacheFetch u;
                RemoteSearch (key_of cfg ctx w) u] in
  let logged := {| queries := queries w ++ [query_of env ctx u];
                   cache := cache w; servers := servers w;
                   trace := trace w ++ asked |} in
  sauce_checks hlp cfg env ctx image u w =
  match answer_of e with
  | Some reply =>
      (Ok tt, record logged [Delete (message_id (message ctx)); reply])
  | None => (Raised e, logged)
  end.
Proof.
  intros Hvalid Hlimit Hmiss Hraise asked logged.
  unfold sauce_checks. rewrite Hvalid. simpl. unfold bind at 1.
  destruct (_check_member_limited_reads cfg ctx w) as [limited Hcheck].
  rewrite Hcheck in Hlimit |- *. simpl in Hlimit.
  injection Hlimit as ->.
  unfold bind, attempt. rewrite (_get_sauce_miss _ _ _ Hmiss), Hraise.
  cbv zeta. fold asked. fold logged.
  destruct e; unfold sauce_except, reply_error, bind, emit, raise; simpl;
    rewrite ?record_record; reflexivity.
Qed.

(** X4: when the service finds nothing, nothing is cached: [sauce] replies
    with the search-engine links for the url, keeps the command message,
    and leaves the cache as it was, so the next lookup of the url asks the
    service again. *)
Theorem nothing_found_is_not_cached ctx image u w search :
  validate_url hlp u = true ->
  fst (_check_member_limited cfg ctx w) = Ok false ->
  cache w !! u = None ->
  from_url env (key_of cfg ctx w) u = Ok search ->
  results search = [] ->
  let asked := [LogQuery (query_of env ctx u); CacheFetch u;
                RemoteSearch (key_of cfg ctx w) u] in
  sauce_checks hlp cfg env ctx image u w =
  (Ok tt,
   {| queries := queries w ++ [query_of env ctx u];
      cache := cache w; servers := servers w;
      trace := trace w ++ asked ++ [Reply (not_found_embed u) None] |}) /\
  cache (snd (sauce_checks hlp cfg env ctx image u w)) !! u = None.
Proof.
  intros Hvalid Hlimit Hmiss Hfound Hempty asked.
  assert (Hrun : sauce_checks hlp cfg env ctx image u w =
    (Ok tt,
     {| queries := queries w ++ [query_of env ctx u];
        cache := cache w; servers := servers w;
        trace := trace w ++ asked ++ [Reply (not_found_embed u) None] |})).
  { unfold sauce_checks. rewrite Hvalid. simpl. unfold bind at 1.
    destruct (_check_member_limited_reads cfg ctx w) as [limited Hcheck].
    rewrite Hcheck in Hlimit |- *. simpl in Hlimit.
    injection Hlimit as ->.
    unfold bind, attempt. rewrite (_get_sauce_miss _ _ _ Hmiss), Hfound, Hempty.
    unfold sauce_reply, bind, ret, emit, record. simpl.
    by rewrite <- ?app_assoc. }
  split; [exact Hrun|]. by rewrite Hrun.
Qed.

(** X5: without a token for the secondary service no call to it is ever
    made: every result, anime or not, is replied without a file, and apart
    from that reply only the command message may be deleted. *)
Theorem no_token_no_preview ctx image u sauce w :
  Py.truthy (tracemoe_token cfg) = false ->
  sauce_reply hlp cfg env ctx image u (Some sauce) w =
  (Ok tt,
   record w (Reply (sauce_embed sauce) None ::
             (if negb image && negb (bool_decide (is_Some (reference ctx)))
              then [Delete (message_id (message ctx))] else []))).
Proof.
  intros Htoken. unfold sauce_reply, _video_preview. rewrite Htoken. simpl.
  destruct (bool_decide (result_class sauce = AnimeSource)); simpl;
    destruct (negb image && negb (bool_decide (is_Some (reference ctx))));
    unfold bind, ret, emit; simpl; rewrite ?record_record; reflexivity.
Qed.

(** X6: a clip the secondary service marks as adult is attached only in a
    channel that is marked NSFW: with matching anilist ids and a non-empty
    clip, the reply carries the clip unless it is adult and the channel is
    not NSFW, in which case the result is replied without it. *)
Theorem adult_preview_needs_nsfw_channel ctx image u sauce w top others clip :
  result_class sauce = AnimeSource ->
  Py.truthy (tracemoe_token cfg) = true ->
  tracemoe_search env u = Ok (top :: others) ->
  load_ids env sauce = true ->
  sauce_anilist_id env sauce = Some (anilist_id top) ->
  video_preview_natural env (top :: others) = Ok clip ->
  clip <> [] ->
  exists rest,
    sauce_reply hlp cfg env ctx image u (Some sauce) w =
    (Ok tt,
     record w ([TraceMoeSearch u; TraceMoePreview] ++
               Reply (sauce_embed sauce)
                 (if is_adult top && negb (channel_is_nsfw ctx) then None
                  else Some {| file_bytes := clip;
                               filename :=
                                 Py.replace " "%char "_"%char
                                   (Py.lower (Py.format (sauce_title hlp sauce)
                                              ++ "_preview.mp4")) |})
               :: rest)).
Proof.
  intros Hanime Htoken Hdocs Hids Hsame Hclip Hnonempty.
  exists (if negb image && negb (bool_decide (is_Some (reference ctx)))
          then [Delete (message_id (message ctx))] else []).
  assert (Hpreview : _video_preview cfg env sauce u w =
            (Ok (Some clip, is_adult top),
             record w [TraceMoeSearch u; TraceMoePreview])).
  { unfold _video_preview. rewrite Htoken. simpl. unfold bind, emit.
    rewrite Hdocs, Hids, (bool_decide_eq_true_2 _ Hsame). simpl.
    rewrite Hclip. unfold ret. by rewrite record_record. }
  unfold sauce_reply. rewrite Hanime.
  rewrite bool_decide_eq_true_2 by reflexivity.
  unfold bind at 1. unfold bind at 1. rewrite Hpreview. cbn [fst snd].
  destruct clip as [|b clip]; [contradiction|]. cbn [nonempty].
  destruct (is_adult top && negb (channel_is_nsfw ctx));
    destruct (negb image && negb (bool_decide (is_Some (reference ctx))));
    unfold bind, ret, emit; rewrite ?record_record; reflexivity.
Qed.

End Answers.

(** *** The channel search, message by message *)

Section Search.

Variable hlp : Helpers.
Variable env : Env.

Lemma _get_last_image_post_loop_skips ctx pre rest w :
  Forall barren pre ->
  _get_last_image_post_loop hlp env ctx (pre ++ rest) w
  = _get_last_image_post_loop hlp env ctx rest w.
Proof.
  induction 1 as [|m pre [Hatt Hlink] _ IH]; [reflexivity|].
  simpl. by rewrite Hatt, Hlink.
Qed.

Lemma qualifying_is_truthy m a :
  In a (_get_image_attachments m) -> Py.truthy (_get_attachment_image a) = true.
Proof.
  unfold _get_image_attachments. intros H.
  apply filter_In in H as [_ H]. exact H.
Qed.

(** X7: the channel search takes the newest message that has something:
    older messages are not looked at, messages with neither a qualifying
    attachment nor an image link as text are passed over, a single
    qualifying attachment yields its image url (a non-empty string, also
    when the text of that message is an image link), and a message without
    attachments whose text is an image link yields that text. *)
Theorem channel_search_takes_newest_image ctx pre m rest w :
  Forall barren pre ->
  (forall a,
     _get_image_attachments m = [a] ->
     _get_last_image_post_loop hlp env ctx (pre ++ m :: rest) w
       = (Ok (_get_attachment_image a), w) /\
     Py.truthy (_get_attachment_image a) = true) /\
  (_get_image_attachments m = [] ->
   IMAGE_URL_RE_match (content m) = true ->
   _get_last_image_post_loop hlp env ctx (pre ++ m :: rest) w
     = (Ok (Some (content m)), w)).
Proof.
  intros Hpre. rewrite (_get_last_image_post_loop_skips _ _ _ _ Hpre).
  split.
  - intros a Hatt. split; [simpl; by rewrite Hatt|].
    apply (qualifying_is_truthy m). rewrite Hatt. by left.
  - intros Hatt Hlink. simpl. by rewrite Hatt, Hlink.
Qed.

(** X8: only the 50 newest messages of the channel are searched: when none
    of them has a qualifying attachment or is an image link, the search
    returns [None] having asked for the history once, whatever older
    messages hold, and an invocation without url and without reply has no
    image. *)
Theorem channel_search_reads_50_messages ctx url w :
  Forall barren (take 50 (history env)) ->
  Py.truthy url = false ->
  reference ctx = None ->
  _get_last_image_post hlp env ctx w = (Ok None, record w [History 50]) /\
  image_resolver hlp env ctx url w = (Ok None, record w [History 50]).
Proof.
  intros Hbarren Hurl Href.
  assert (Hsearch : _get_last_image_post hlp env ctx w
                    = (Ok None, record w [History 50])).
  { unfold _get_last_image_post, bind, emit.
    rewrite <- (app_nil_r (take 50 (history env))).
    by rewrite (_get_last_image_post_loop_skips _ _ _ _ Hbarren). }
  split; [exact Hsearch|].
  unfold image_resolver. by rewrite Href, Hurl.
Qed.

(** X9: an image attached to the command itself is found through the
    channel: without a url argument, when the command message carries one
    qualifying attachment and is the newest message of the channel, the
    resolver yields the image url of that attachment (its proxy url with
    the format parameter for a video), having read the history, and this
    also when the command is a reply. *)
Theorem own_attachment_is_found_in_channel ctx url w a rest :
  Py.truthy url = false ->
  _get_image_attachments (message ctx) = [a] ->
  history env = message ctx :: rest ->
  image_resolver hlp env ctx url w
  = (Ok (_get_attachment_image a), record w [History 50]).
Proof.
  intros Hurl Hatt Hnewest.
  unfold image_resolver, image_in_command. rewrite Hurl, Hatt. simpl.
  assert (Hsearch : _get_last_image_post hlp env ctx w
                    = (Ok (_get_attachment_image a), record w [History 50])).
  { unfold _get_last_image_post, bind, emit. rewrite Hnewest. simpl.
    by rewrite Hatt. }
  by destruct (reference ctx).
Qed.

End Search.

(** *** The prompt, in every outcome *)

Section PromptOutcomes.

Variable hlp : Helpers.
Variable env : Env.

(** X10: the prompt cleans up after itself in every outcome: it offers
    min(n, 10) numbered reactions, waits once, and then always deletes the
    prompt message, also when the reaction stands for no item; the command
    message is deleted only when the wait timed out. *)
Theorem prompt_is_always_deleted ctx items w :
  trace (snd (_index_prompt hlp env ctx items w))
  = (trace w ++ offer hlp env items ++
     match List.find (prompt_check hlp env ctx items) (reactions env) with
     | None => [Delete (message_id (message ctx)); Delete (prompt_id env)]
     | Some _ => [Delete (prompt_id env)]
     end)%list /\
  length (offer hlp env items) = (2 + Nat.min (length items) 10)%nat.
Proof.
  split.
  - destruct (List.find (prompt_check hlp env ctx items) (reactions env))
      as [[reaction user]|] eqn:Hfind.
    + unfold _index_prompt, bind. unfold emit at 1. rewrite for_each_emit.
      unfold emit. fold (index_range (length items)).
      fold (prompt_check hlp env ctx items). rewrite Hfind.
      destruct (Py.index items (keycap_to_int hlp reaction - 1));
        unfold ret, raise; rewrite !record_record; unfold offer; simpl;
        by rewrite <- !app_assoc.
    + by rewrite (_index_prompt_timeout _ _ _ _ _ Hfind).
  - unfold offer. simpl. rewrite length_app, length_map, index_range_length.
    simpl. lia.
Qed.

(** X11: when the number of a keycap emoji is read back correctly for 1 to
    10, the prompt never fails on the index and never picks beyond the
    tenth item: it returns [None] (timeout) or one of the first
    min(n, 10) items. *)
Theorem prompt_selects_among_first_ten ctx items w :
  (forall reaction k,
     (1 <= k <= 10)%nat ->
     emoji reaction = keycap_emoji hlp k ->
     keycap_to_int hlp reaction = Z.of_nat k) ->
  fst (_index_prompt hlp env ctx items w) = Ok None \/
  exists k item,
    (k < Nat.min (length items) 10)%nat /\
    items !! k = Some item /\
    fst (_index_prompt hlp env ctx items w) = Ok (Some item).
Proof.
  intros Hkey.
  destruct (List.find (prompt_check hlp env ctx items) (reactions env))
    as [[reaction user]|] eqn:Hfind.
  - right. pose proof Hfind as Hcheck. apply find_some in Hcheck as [_ Hcheck].
    unfold prompt_check, reaction_check in Hcheck. simpl in Hcheck.
    apply andb_prop in Hcheck as [_ Hemoji].
    apply existsb_exists in Hemoji as (e & He & Heq).
    apply String.eqb_eq in Heq. apply in_map_iff in He as (k & Hk & Hin).
    apply in_seq in Hin. subst e.
    assert (Hbound : (k - 1 < length items)%nat) by lia.
    apply lookup_lt_is_Some_2 in Hbound as [item Hitem].
    exists (k - 1)%nat, item. split; [lia|]. split; [exact Hitem|].
    assert (Hindex : Py.index items (keycap_to_int hlp reaction - 1)
                     = Some item).
    { rewrite (Hkey reaction k); [|lia|exact Heq].
      unfold Py.index.
      replace (Z.of_nat k - 1)%Z with (Z.of_nat (k - 1)) by lia.
      destruct (Z.leb_spec 0 (Z.of_nat (k - 1))); [|lia].
      by rewrite Nat2Z.id. }
    by rewrite (_index_prompt_selected _ _ _ _ _ _ _ _ Hfind Hindex).
  - left. by rewrite (_index_prompt_timeout _ _ _ _ _ Hfind).
Qed.

End PromptOutcomes.

(** *** Keys: format, registration, use *)

Lemma substring_0_length s m :
  (m <= String.length s)%nat -> String.length (String.substring 0 m s) = m.
Proof.
  revert m. induction s as [|c s IH]; intros [|m] Hm; simpl in *;
    try reflexivity; try lia.
  rewrite IH; [reflexivity|lia].
Qed.

Lemma _re_api_key_match_length s :
  _re_api_key_match s = true ->
  String.length s = 40%nat \/ String.length s = 41%nat.
Proof.
  unfold _re_api_key_match, Py.before_dollar. intros Hmatch.
  destruct (Py.endswith s (String Py.LF "")) eqn:Hend.
  - simpl in Hmatch.
    destruct (Nat.eqb_spec (String.length s) 40); [by left|].
    simpl in Hmatch. rewrite orb_false_r in Hmatch.
    apply andb_prop in Hmatch as [Hlen _].
    apply Nat.eqb_eq in Hlen.
    unfold Py.endswith in Hend. apply andb_prop in Hend as [Hle _].
    apply Nat.leb_le in Hle. simpl in Hle.
    rewrite substring_0_length in Hlen by lia. right. lia.
  - simpl in Hmatch. rewrite orb_false_r in Hmatch.
    apply andb_prop in Hmatch as [Hlen _]. apply Nat.eqb_eq in Hlen.
    by left.
Qed.

Lemma _re_api_key_match_truthy s :
  _re_api_key_match s = true -> Py.truthy (Some s) = true.
Proof.
  intros Hmatch. apply truthy_Some. intros ->.
  apply _re_api_key_match_length in Hmatch as [H|H]; discriminate H.
Qed.

Section Keys.

Variable hlp : Helpers.
Variable cfg : Config.
Variable env : Env.

(** X12: [apikey] always ends normally, deletes the command message before
    anything else, and never touches the query log or the cache; the keys
    are either all kept, or the key of this one guild is set to the given
    string, and that only with the format check passed and a credential
    test that succeeded for an enhanced account, run before the write. *)
Theorem apikey_only_sets_own_key ctx api_key w :
  exists evs,
    apikey env ctx api_key w
    = (Ok tt,
       {| queries := queries w; cache := cache w;
          servers := servers (snd (apikey env ctx api_key w));
          trace := trace w ++ Delete (message_id (message ctx)) :: evs |}) /\
    (servers (snd (apikey env ctx api_key w)) = servers w /\
     ~ In (Register (guild ctx) api_key) evs
     \/
     servers (snd (apikey env ctx api_key w))
       = <[guild ctx := api_key]> (servers w) /\
     _re_api_key_match api_key = true /\
     success (test env api_key) = true /\
     account_type (test env api_key) = ACCOUNT_ENHANCED /\
     exists sent, evs = [RemoteTest api_key; Register (guild ctx) api_key;
                         sent]).
Proof.
  rewrite apikey_outcomes.
  destruct (_re_api_key_match api_key); simpl.
  - destruct (success (test env api_key)); simpl.
    + destruct (bool_decide (account_type (test env api_key)
                              = ACCOUNT_ENHANCED)) eqn:Htier; simpl.
      * eexists. split; [reflexivity|]. right.
        apply bool_decide_eq_true in Htier. by eauto 10.
      * eexists. split; [reflexivity|]. left. split; [reflexivity|].
        simpl. intros [H|[H|H]]; by try discriminate H.
    + eexists. split; [reflexivity|]. left. split; [reflexivity|].
      simpl. intros [H|[H|H]]; by try discriminate H.
  - eexists. split; [reflexivity|]. left. split; [reflexivity|].
    simpl. intros [H|H]; by try discriminate H.
Qed.

(** X13: a string whose length is neither 40 nor 41 is always refused as
    badly formatted: the command message is deleted, bad_api_key is sent,
    no credential test is run and no key is stored. *)
Theorem apikey_rejects_other_lengths ctx api_key w :
  String.length api_key <> 40%nat ->
  String.length api_key <> 41%nat ->
  apikey env ctx api_key w
  = (Ok tt, record w [Delete (message_id (message ctx));
                      Send (basic_embed (lang "Global" "generic_error")
                              (lang "Sauce" "bad_api_key") None)]).
Proof.
  intros H40 H41. rewrite apikey_outcomes.
  destruct (_re_api_key_match api_key) eqn:Hmatch; [|reflexivity].
  apply _re_api_key_match_length in Hmatch as [H|H]; contradiction.
Qed.

Lemma apikey_registers ctx api_key w :
  _re_api_key_match api_key = true ->
  success (test env api_key) = true ->
  account_type (test env api_key) = ACCOUNT_ENHANCED ->
  servers (snd (apikey env ctx api_key w))
  = <[guild ctx := api_key]> (servers w) /\
  cache (snd (apikey env ctx api_key w)) = cache w.
Proof.
  intros Hmatch Hok Htier. rewrite apikey_outcomes, Hmatch, Hok. simpl.
  by rewrite (bool_decide_eq_true_2 _ Htier).
Qed.

(** X14: a registered key replaces whatever key the guild had and is the
    key of the guild's next lookups: after a registration that passed the
    three checks, [Servers.lookup_guild] of the guild is that key, and a
    lookup in the guild that misses the cache searches with it rather than
    with the shared key. *)
Theorem registered_key_is_used ctx ctx' api_key u w :
  _re_api_key_match api_key = true ->
  success (test env api_key) = true ->
  account_type (test env api_key) = ACCOUNT_ENHANCED ->
  guild ctx' = guild ctx ->
  cache w !! u = None ->
  let w1 := snd (apikey env ctx api_key w) in
  fst (Servers.lookup_guild (guild ctx) w1) = Ok (Some api_key) /\
  exists rest,
    trace (snd (_get_sauce cfg env ctx' u w1))
    = (trace w1 ++ [LogQuery (query_of env ctx' u); CacheFetch u;
                    RemoteSearch (Some api_key) u] ++ rest)%list.
Proof.
  intros Hmatch Hok Htier Hguild Hmiss w1.
  destruct (apikey_registers ctx api_key w Hmatch Hok Htier)
    as [Hservers Hcache].
  assert (Hkey : servers w1 !! guild ctx = Some api_key).
  { unfold w1. rewrite Hservers. apply lookup_insert_eq. }
  split; [simpl; by rewrite Hkey|].
  assert (Hmiss1 : cache w1 !! u = None) by (unfold w1; by rewrite Hcache).
  rewrite (_get_sauce_miss cfg env ctx' u w1 Hmiss1).
  assert (Hkey_of : key_of cfg ctx' w1 = Some api_key).
  { unfold key_of. rewrite Hguild, Hkey.
    by rewrite (_re_api_key_match_truthy _ Hmatch). }
  rewrite Hkey_of. cbv zeta.
  destruct (from_url env (Some api_key) u) as [search|e].
  - destruct (head (results search)); simpl.
    + exists [CacheStore u]. by rewrite <- app_assoc.
    + exists []. reflexivity.
  - exists []. reflexivity.
Qed.

(** *** The cooldown handler *)

Lemma sauce_error_reinvokes ctx url w key :
  servers w !! guild ctx = Some key ->
  key <> "" ->
  sauce_error hlp cfg env ctx url CommandOnCooldown w
  = (match fst (sauce hlp cfg env ctx url w) with
     | Ok _ => Ok Returned
     | Raised e => Raised e
     end, snd (sauce hlp cfg env ctx url w)).
Proof.
  intros Hkey Hne. unfold sauce_error, bind. simpl.
  rewrite Hkey, (truthy_Some _ Hne).
  by destruct (sauce hlp cfg env ctx url w) as [[[]|e] w'].
Qed.

(** X15: registering a key lifts the guild cooldown: once [apikey] has
    stored a key for the guild, the handler answers a cooldown error of a
    command in that guild by running the command again and returning (or
    raising what the command raises); it sends no limit message of its
    own. *)
Theorem registered_guild_is_reinvoked ctx ctx' api_key url w :
  _re_api_key_match api_key = true ->
  success (test env api_key) = true ->
  account_type (test env api_key) = ACCOUNT_ENHANCED ->
  guild ctx' = guild ctx ->
  let w1 := snd (apikey env ctx api_key w) in
  sauce_error hlp cfg env ctx' url CommandOnCooldown w1
  = (match fst (sauce hlp cfg env ctx' url w1) with
     | Ok _ => Ok Returned
     | Raised e => Raised e
     end, snd (sauce hlp cfg env ctx' url w1)).
Proof.
  intros Hmatch Hok Htier Hguild w1.
  destruct (apikey_registers ctx api_key w Hmatch Hok Htier) as [Hservers _].
  apply (sauce_error_reinvokes ctx' url w1 api_key).
  - unfold w1. rewrite Hservers, Hguild. apply lookup_insert_eq.
  - intros ->. apply _re_api_key_match_length in Hmatch as [H|H];
      discriminate H.
Qed.

(** X16: without a key for the guild the handler never runs the command:
    on a cooldown error it sends api_limit_exceeded once and raises the
    error again, the stores untouched; any other error is raised again
    with nothing sent at all. *)
Theorem unregistered_guild_is_not_reinvoked ctx url w :
  Py.truthy (servers w !! guild ctx) = false ->
  sauce_error hlp cfg env ctx url CommandOnCooldown w
  = (Ok (Reraised CommandOnCooldown),
     record w [Send (basic_embed (lang "Global" "generic_error")
                       (lang "Sauce" "api_limit_exceeded") None)]) /\
  sauce_error hlp cfg env ctx url OtherCommandError w
  = (Ok (Reraised OtherCommandError), w).
Proof.
  intros Hkey. split; [|reflexivity].
  unfold sauce_error, bind. simpl. by rewrite Hkey.
Qed.

End Keys.

(** *** The member count *)

Lemma logged_app user log q :
  SauceQueries.logged user (log ++ [q])
  = (SauceQueries.logged user log + if decide (user_id q = user) then 1 else 0)%Z.
Proof.
  unfold SauceQueries.logged. rewrite filter_app, length_app.
  rewrite Nat2Z.inj_add. f_equal.
  rewrite filter_cons. by destruct (decide (user_id q = user)).
Qed.

Section Count.

Variable cfg : Config.
Variable env : Env.

Lemma _get_sauce_logs ctx u w :
  queries (snd (_get_sauce cfg env ctx u w))
  = (queries w ++ [query_of env ctx u])%list.
Proof.
  unfold _get_sauce, bind. simpl.
  destruct (cache w !! u) as [row|].
  - by destruct (containers_getattr (cache_result_class row)).
  - destruct (from_url env _ u) as [search|e]; [|reflexivity].
    by destruct (head (results search)).
Qed.

(** X17: every run of the lookup counts against the author, also a cache
    hit and a lookup that raises: the author's count grows by exactly one;
    so with a member limit of n a member who has n - 1 logged queries
    passes the check, and after that one lookup no longer does. *)
Theorem every_lookup_counts ctx u w n :
  member_api_limit cfg = Some n ->
  (0 < n)%Z ->
  SauceQueries.logged (author (message ctx)) (queries w) = (n - 1)%Z ->
  SauceQueries.logged (author (message ctx))
    (queries (snd (_get_sauce cfg env ctx u w))) = n /\
  _check_member_limited cfg ctx w = (Ok false, w) /\
  fst (_check_member_limited cfg ctx (snd (_get_sauce cfg env ctx u w)))
    = Ok true.
Proof.
  intros Hn Hpos Hcount.
  assert (Hafter : SauceQueries.logged (author (message ctx))
                     (queries (snd (_get_sauce cfg env ctx u w))) = n).
  { rewrite _get_sauce_logs, logged_app, Hcount. simpl.
    destruct (decide (author (message ctx) = author (message ctx)));
      [lia|contradiction]. }
  split; [exact Hafter|]. split.
  - unfold _check_member_limited. rewrite Hn. simpl.
    destruct (Z.eqb_spec n 0); [lia|].
    unfold bind, SauceQueries.user_count, ret. rewrite Hcount.
    by destruct (Z.leb_spec n (n - 1)); [lia|].
  - rewrite (_check_member_limited_exceeded cfg ctx _ n Hn Hpos);
      [reflexivity|lia].
Qed.

End Count.

(** *** The channel guard and the link pattern *)

Lemma prefix_app s t : String.prefix s (s ++ t) = true.
Proof.
  induction s as [|c s IH]; simpl; [by destruct t|].
  by destruct (ascii_dec c c).
Qed.

Lemma str_in_app needle pre post :
  Py.str_in needle (pre ++ needle ++ post) = true.
Proof.
  assert (Hhead : forall hay,
            String.prefix needle hay = true -> Py.str_in needle hay = true).
  { intros hay H. destruct hay; cbn [Py.str_in]; by rewrite H. }
  induction pre as [|c pre IH].
  - change ("" ++ needle ++ post) with (needle ++ post).
    apply Hhead, prefix_app.
  - change (String c pre ++ needle ++ post)
      with (String c (pre ++ needle ++ post)).
    cbn [Py.str_in]. rewrite IH. apply orb_true_r.
Qed.

Lemma prefix_substring p m s :
  String.prefix p (String.substring 0 m s) = true -> String.prefix p s = true.
Proof.
  revert m s. induction p as [|a p IH]; intros m s; [by destruct s|].
  destruct s as [|c s]; [by destruct m|].
  destruct m as [|m]; [discriminate|]. simpl.
  destruct (ascii_dec a c); [apply IH|discriminate].
Qed.

Section Guard.

Variable env : Env.

(** X18: the channel test of line 55 is a substring test: a command of
    someone other than the bot passes the guard whenever the decimal
    numeral of its channel id occurs anywhere in the configured string,
    be it as a whole entry or inside a longer one. *)
Theorem guard_accepts_any_occurrence ctx pre post :
  author (message ctx) <> bot_user_id env ->
  sauce_guard env ctx (pre ++ Py.str (channel_id ctx) ++ post) = false.
Proof.
  intros Hauthor. unfold sauce_guard. rewrite str_in_app. simpl.
  by apply N.eqb_neq.
Qed.

End Guard.

(** Strings cut in two. *)

Lemma app_String c (a b : string) : String c a ++ b = String c (a ++ b).
Proof. reflexivity. Qed.

Lemma length_app (a b : string) :
  String.length (a ++ b) = (String.length a + String.length b)%nat.
Proof. induction a as [|c a IH]; simpl; [reflexivity|by rewrite IH]. Qed.

Lemma substring_all s : String.substring 0 (String.length s) s = s.
Proof. induction s as [|c s IH]; simpl; [reflexivity|by rewrite IH]. Qed.

Lemma substring_app_left a b :
  String.substring 0 (String.length a) (a ++ b) = a.
Proof.
  induction a as [|c a IH]; simpl; [by destruct b|by rewrite IH].
Qed.

Lemma substring_app_right a b :
  String.substring (String.length a) (String.length b) (a ++ b) = b.
Proof. induction a as [|c a IH]; simpl; [apply substring_all|exact IH]. Qed.

Lemma substring_split m s :
  (m <= String.length s)%nat ->
  s = String.substring 0 m s ++ String.substring m (String.length s - m) s.
Proof.
  revert m. induction s as [|c s IH]; intros [|m] Hm; simpl in *;
    try reflexivity; try lia.
  - by rewrite substring_all.
  - change (String c s =
            String c (String.substring 0 m s ++
                      String.substring m (String.length s - m) s)).
    f_equal. apply IH. lia.
Qed.

Lemma prefix_split p t :
  String.prefix p t = true ->
  t = p ++ String.substring (String.length p)
             (String.length t - String.length p) t.
Proof.
  revert t. induction p as [|a p IH]; intros t H.
  - simpl. rewrite Nat.sub_0_r. by rewrite substring_all.
  - destruct t as [|c t]; [discriminate|]. simpl in H.
    destruct (ascii_dec a c) as [->|]; [|discriminate].
    rewrite app_String. simpl. f_equal. by apply IH.
Qed.

Lemma endswith_split s suffix :
  Py.endswith s suffix = true ->
  s = String.substring 0 (String.length s - String.length suffix) s ++ suffix.
Proof.
  unfold Py.endswith. intros H. apply andb_prop in H as [Hlen Heq].
  apply Nat.leb_le in Hlen. apply String.eqb_eq in Heq.
  rewrite (substring_split (String.length s - String.length suffix) s) at 1
    by lia.
  f_equal. rewrite <- Heq at 3. f_equal. lia.
Qed.

Lemma endswith_app a b : Py.endswith (a ++ b) b = true.
Proof.
  unfold Py.endswith. rewrite length_app.
  apply andb_true_intro. split; [apply Nat.leb_le; lia|].
  apply String.eqb_eq.
  replace (String.length a + String.length b - String.length b)%nat
    with (String.length a) by lia.
  apply substring_app_right.
Qed.

Lemma chars_app a b : Py.chars (a ++ b) = (Py.chars a ++ Py.chars b)%list.
Proof.
  unfold Py.chars. induction a as [|c a IH]; simpl; [reflexivity|by rewrite IH].
Qed.

(** [\S] on every character of a text. *)
Lemma no_space_spec l :
  forallb (fun c => negb (Py.is_space c)) l = true <->
  Forall (fun c => Py.is_space c = false) l.
Proof.
  rewrite forallb_forall, List.Forall_forall.
  split; intros H c Hc; specialize (H c Hc); by destruct (Py.is_space c).
Qed.

(** The schemes and the extensions hold no whitespace. *)
Lemma image_link_parts scheme ext :
  In scheme ["http://"; "https://"] ->
  In ext [".jpg"; ".png"; ".jpeg"; ".webp"] ->
  Forall (fun c => Py.is_space c = false) (Py.chars scheme) /\
  Forall (fun c => Py.is_space c = false) (Py.chars ext).
Proof.
  intros Hscheme Hext. split; apply no_space_spec.
  - simpl in Hscheme. destruct Hscheme as [<-|[<-|[]]]; reflexivity.
  - simpl in Hext. destruct Hext as [<-|[<-|[<-|[<-|[]]]]]; reflexivity.
Qed.

(** [IMAGE_URL_RE] matches the image links and nothing else. *)
Lemma IMAGE_URL_RE_match_image_link s :
  IMAGE_URL_RE_match s = true <-> image_link s.
Proof.
  unfold IMAGE_URL_RE_match. split.
  - intros H. apply existsb_exists in H as (t & Ht & H).
    apply existsb_exists in H as (scheme & Hscheme & H).
    apply andb_prop in H as [H Hext]. apply andb_prop in H as [Hpre Hspace].
    apply existsb_exists in Hext as (ext & Hext & H).
    apply andb_prop in H as [Hend Hlen]. apply Nat.ltb_lt in Hlen.
    apply prefix_split in Hpre.
    set (rest := String.substring (String.length scheme)
                   (String.length t - String.length scheme) t) in *.
    pose proof (endswith_split _ _ Hend) as Hrest.
    set (body := String.substring 0 (String.length rest - String.length ext)
                   rest) in *.
    exists scheme, body, ext.
    split; [exact Hscheme|]. split; [exact Hext|]. split; [|split].
    + intros Hbody.
      assert (Hl : String.length body
                   = (String.length rest - String.length ext)%nat)
        by (apply substring_0_length; lia).
      rewrite Hbody in Hl. simpl in Hl. lia.
    + apply no_space_spec. rewrite Hrest, chars_app, forallb_app in Hspace.
      by apply andb_prop in Hspace as [Hbody _].
    + assert (Ht' : t = scheme ++ body ++ ext) by (by rewrite <- Hrest).
      unfold Py.before_dollar in Ht.
      destruct (Py.endswith s (String Py.LF "")) eqn:Hlf; simpl in Ht.
      * destruct Ht as [<-|[Ht|[]]]; [by left|right].
        apply endswith_split in Hlf. simpl in Hlf.
        rewrite Hlf. f_equal. by rewrite Ht, <- Ht'.
      * destruct Ht as [<-|[]]. by left.
  - intros (scheme & body & ext & Hscheme & Hext & Hbody & Hspace & Hs).
    set (t := scheme ++ body ++ ext) in *.
    assert (Ht : In t (Py.before_dollar s)).
    { unfold Py.before_dollar. destruct Hs as [->| ->].
      - destruct (Py.endswith t (String Py.LF "")); simpl; by left.
      - rewrite endswith_app. right. left.
        rewrite length_app. simpl.
        replace (String.length t + 1 - 1)%nat with (String.length t) by lia.
        apply substring_app_left. }
    apply existsb_exists. exists t. split; [exact Ht|].
    apply existsb_exists. exists scheme. split; [exact Hscheme|].
    subst t. cbv beta zeta. rewrite length_app.
    replace (String.length scheme + String.length (body ++ ext)
             - String.length scheme)%nat
      with (String.length (body ++ ext)) by lia.
    rewrite substring_app_right.
    destruct (image_link_parts _ _ Hscheme Hext) as [_ Hext'].
    apply andb_true_intro. split; [apply andb_true_intro; split|].
    + apply prefix_app.
    + apply no_space_spec. rewrite chars_app. by apply Forall_app.
    + apply existsb_exists. exists ext. split; [exact Hext|].
      apply andb_true_intro. split; [apply endswith_app|].
      apply Nat.ltb_lt. rewrite length_app.
      destruct body; [done|simpl; lia].
Qed.

(** Whitespace other than a final line feed excludes an image link. *)
Lemma image_link_has_no_space s c :
  In c (Py.chars s) -> Py.is_space c = true -> c <> Py.LF -> ~ image_link s.
Proof.
  intros Hc Hsp Hlf (scheme & body & ext & Hscheme & Hext & _ & Hbody & Hs).
  destruct (image_link_parts _ _ Hscheme Hext) as [Hscheme' Hext'].
  assert (Hall : Forall (fun c => Py.is_space c = false)
                   (Py.chars (scheme ++ body ++ ext))).
  { rewrite chars_app, chars_app.
    apply Forall_app. split; [exact Hscheme'|].
    apply Forall_app. split; [exact Hbody|exact Hext']. }
  rewrite List.Forall_forall in Hall.
  destruct Hs as [->| ->].
  - specialize (Hall c Hc). congruence.
  - rewrite chars_app in Hc. apply in_app_or in Hc as [Hc|Hc].
    + specialize (Hall c Hc). congruence.
    + simpl in Hc. destruct Hc as [<-|[]]. by apply Hlf.
Qed.

Section LinkSearch.

Variable hlp : Helpers.
Variable env : Env.

(** X19: an image link is recognised by the channel search only as the
    whole text of a message.  At a message without qualifying attachments
    the search of lines 228-245 returns the text when it is an image link
    (a scheme, characters that are no whitespace, one of the four
    extensions, at most one final line feed) and goes on to the older
    messages when it is not; so it goes on whenever the text holds a
    whitespace character other than a line feed, as a link among other
    words does. *)
Theorem image_link_is_the_whole_text ctx m rest w :
  _get_image_attachments m = [] ->
  (image_link (content m) ->
   _get_last_image_post_loop hlp env ctx (m :: rest) w
   = (Ok (Some (content m)), w)) /\
  (~ image_link (content m) ->
   _get_last_image_post_loop hlp env ctx (m :: rest) w
   = _get_last_image_post_loop hlp env ctx rest w) /\
  (forall c,
     In c (Py.chars (content m)) -> Py.is_space c = true -> c <> Py.LF ->
     _get_last_image_post_loop hlp env ctx (m :: rest) w
     = _get_last_image_post_loop hlp env ctx rest w).
Proof.
  intros Hnone.
  assert (Hlink : image_link (content m) ->
            _get_last_image_post_loop hlp env ctx (m :: rest) w
            = (Ok (Some (content m)), w)).
  { intros H. apply IMAGE_URL_RE_match_image_link in H.
    cbn [_get_last_image_post_loop]. rewrite Hnone. cbn [nonempty].
    by rewrite H. }
  assert (Hother : ~ image_link (content m) ->
            _get_last_image_post_loop hlp env ctx (m :: rest) w
            = _get_last_image_post_loop hlp env ctx rest w).
  { intros H. cbn [_get_last_image_post_loop]. rewrite Hnone. cbn [nonempty].
    destruct (IMAGE_URL_RE_match (content m)) eqn:Hmatch; [|reflexivity].
    by apply IMAGE_URL_RE_match_image_link in Hmatch. }
  split; [exact Hlink|]. split; [exact Hother|].
  intros c Hc Hsp Hlf. apply Hother.
  by apply (image_link_has_no_space _ c).
Qed.

End LinkSearch.

(** ** Concrete runs of the further properties *)

(** X3 at a lookup that hits the daily limit. *)
Lemma lookup_errors_are_answered_witness :
  sauce_checks Sample.helpers Sample.config
    (Cases.env_failing DailyLimitReachedException)
    (Sample.command [] None) true "https://x/a.png" Sample.world
  = (Ok tt,
     {| queries := [{| user_id := 7; guild_id := 5;
                       query_url := "https://x/a.png"; timestamp := 0 |}];
        cache := ∅; servers := ∅;
        trace := [LogQuery {| user_id := 7; guild_id := 5;
                              query_url := "https://x/a.png";
                              timestamp := 0 |};
                  CacheFetch "https://x/a.png";
                  RemoteSearch (Some "shared") "https://x/a.png";
                  Delete 10;
                  Reply (basic_embed (lang "Global" "generic_error")
                           (lang "Sauce" "api_limit_exceeded")
                           (Some AVATAR_THINKING)) None] |}).
Proof.
  apply (lookup_errors_are_answered Sample.helpers Sample.config
           (Cases.env_failing DailyLimitReachedException)
           (Sample.command [] None) true "https://x/a.png" Sample.world
           DailyLimitReachedException); reflexivity.
Defined.

(** X4 at a service that finds nothing. *)
Lemma nothing_found_is_not_cached_witness :
  cache (snd (sauce_checks Sample.helpers Sample.config Sample.env
                (Sample.command [] None) true "https://x/a.png"
                Sample.world)) !! "https://x/a.png" = None.
Proof.
  apply (nothing_found_is_not_cached Sample.helpers Sample.config Sample.env
           (Sample.command [] None) true "https://x/a.png" Sample.world
           {| results := []; short_remaining := 3; long_remaining := 99 |});
    reflexivity.
Defined.

(** X5 at an anime result without a token. *)
Lemma no_token_no_preview_witness :
  sauce_reply Sample.helpers Sample.config
    (Sample.env_with [] [] [] (Ok [Cases.adult_match]))
    (Sample.command [] None) true "https://x/a.png" (Some Sample.anime)
    Sample.world
  = (Ok tt, record Sample.world [Reply (sauce_embed Sample.anime) None]).
Proof.
  apply (no_token_no_preview Sample.helpers Sample.config
           (Sample.env_with [] [] [] (Ok [Cases.adult_match]))
           (Sample.command [] None) true "https://x/a.png" Sample.anime
           Sample.world).
  reflexivity.
Defined.

(** X6 at an adult clip in a channel that is not NSFW. *)
Lemma adult_preview_needs_nsfw_channel_witness :
  exists rest,
    sauce_reply Sample.helpers (Sample.config_with None (Some "token"))
      (Sample.env_with [] [] [] (Ok [Cases.adult_match]))
      (Sample.command [] None) true "https://x/a.png" (Some Sample.anime)
      Sample.world
    = (Ok tt,
       record Sample.world
         ([TraceMoeSearch "https://x/a.png"; TraceMoePreview] ++
          Reply (sauce_embed Sample.anime) None :: rest)).
Proof.
  apply (adult_preview_needs_nsfw_channel Sample.helpers
           (Sample.config_with None (Some "token"))
           (Sample.env_with [] [] [] (Ok [Cases.adult_match]))
           (Sample.command [] None) true "https://x/a.png" Sample.anime
           Sample.world Cases.adult_match [] [Byte.x00]);
    try reflexivity.
  discriminate.
Defined.

(** X7 at a channel whose newest message has nothing and whose second
    message has a video. *)
Lemma channel_search_takes_newest_image_witness :
  _get_last_image_post_loop Sample.helpers Sample.env (Sample.command [] None)
    ([Sample.post []] ++ Sample.post [Sample.v_mp4]
       :: [Sample.post [Sample.b_jpg]]) Sample.world
  = (Ok (Some "https://media/v.mp4?format=jpeg"), Sample.world).
Proof.
  assert (Hquiet : Forall barren [Sample.post []]).
  { constructor; [split; reflexivity|constructor]. }
  apply (proj1 (channel_search_takes_newest_image Sample.helpers Sample.env
                  (Sample.command [] None) [Sample.post []]
                  (Sample.post [Sample.v_mp4]) [Sample.post [Sample.b_jpg]]
                  Sample.world Hquiet)
           Sample.v_mp4 eq_refl).
Defined.

(** X8 at a channel whose 51st message is the first with an image. *)
Lemma channel_search_reads_50_messages_witness :
  image_resolver Sample.helpers
    (Sample.env_with Cases.quiet_channel [] [] (Ok []))
    (Sample.command [] None) None Sample.world
  = (Ok None, record Sample.world [History 50]).
Proof.
  apply (channel_search_reads_50_messages Sample.helpers
           (Sample.env_with Cases.quiet_channel [] [] (Ok []))
           (Sample.command [] None) None Sample.world).
  - change (take 50 (history (Sample.env_with Cases.quiet_channel [] []
                                (Ok []))))
      with (replicate 50 (Sample.post [])).
    apply Forall_replicate. split; reflexivity.
  - reflexivity.
  - reflexivity.
Defined.

(** X9 at a command with a video attached, newest in its channel. *)
Lemma own_attachment_is_found_in_channel_witness :
  image_resolver Sample.helpers
    (Sample.env_with [message Cases.command_with_video] [] [] (Ok []))
    Cases.command_with_video None Sample.world
  = (Ok (Some "https://media/v.mp4?format=jpeg"),
     record Sample.world [History 50]).
Proof.
  apply (own_attachment_is_found_in_channel Sample.helpers
           (Sample.env_with [message Cases.command_with_video] [] [] (Ok []))
           Cases.command_with_video None Sample.world Sample.v_mp4 []);
    reflexivity.
Defined.

(** X11 at lettered emoji, with the second letter arriving. *)
Lemma prompt_selects_among_first_ten_witness :
  fst (_index_prompt Cases.lettered
         (Sample.env_with []
            [({| reaction_message := 900; emoji := "B" |}, 7%N)] [] (Ok []))
         (Sample.command [] None) [Sample.b_jpg; Sample.c_png] Sample.world)
    = Ok None \/
  exists k item,
    (k < Nat.min (length [Sample.b_jpg; Sample.c_png]) 10)%nat /\
    [Sample.b_jpg; Sample.c_png] !! k = Some item /\
    fst (_index_prompt Cases.lettered
           (Sample.env_with []
              [({| reaction_message := 900; emoji := "B" |}, 7%N)] [] (Ok []))
           (Sample.command [] None) [Sample.b_jpg; Sample.c_png]
           Sample.world)
      = Ok (Some item).
Proof.
  apply (prompt_selects_among_first_ten Cases.lettered
           (Sample.env_with []
              [({| reaction_message := 900; emoji := "B" |}, 7%N)] [] (Ok []))
           (Sample.command [] None) [Sample.b_jpg; Sample.c_png]
           Sample.world).
  intros reaction k Hk Hemoji.
  change (keycap_to_int Cases.lettered reaction)
    with (match emoji reaction with
          | String c _ => (Z.of_nat (Py.code c) - 64)%Z
          | EmptyString => 0%Z
          end).
  change (keycap_emoji Cases.lettered k)
    with (String (ascii_of_nat (64 + k)) "") in Hemoji.
  rewrite Hemoji. cbv beta iota. unfold Py.code.
  rewrite nat_ascii_embedding; lia.
Defined.

(** X13 at a key of five characters. *)
Lemma apikey_rejects_other_lengths_witness :
  apikey Sample.env (Sample.command [] None) "12345" Sample.world
  = (Ok tt, record Sample.world
              [Delete 10;
               Send (basic_embed (lang "Global" "generic_error")
                       (lang "Sauce" "bad_api_key") None)]).
Proof.
  apply (apikey_rejects_other_lengths Sample.env (Sample.command [] None)
           "12345" Sample.world); discriminate.
Defined.

(** X14 at a key of forty characters, registered over an older key. *)
Lemma registered_key_is_used_witness :
  fst (Servers.lookup_guild 5
         (snd (apikey Sample.env (Sample.command [] None) Cases.key40
                 (snd (Servers.register 5 "older" Sample.world)))))
  = Ok (Some Cases.key40).
Proof.
  apply (registered_key_is_used Sample.config Sample.env
           (Sample.command [] None) (Sample.command [Sample.b_jpg] None)
           Cases.key40 "https://x/a.png"
           (snd (Servers.register 5 "older" Sample.world)));
    reflexivity.
Defined.

(** X15 at the same registration. *)
Lemma registered_guild_is_reinvoked_witness :
  sauce_error Sample.helpers Sample.config Sample.env
    (Sample.command [] None) (Some "https://x/a.png") CommandOnCooldown
    (snd (apikey Sample.env (Sample.command [] None) Cases.key40
            Sample.world))
  = (match fst (sauce Sample.helpers Sample.config Sample.env
                  (Sample.command [] None) (Some "https://x/a.png")
                  (snd (apikey Sample.env (Sample.command [] None)
                          Cases.key40 Sample.world))) with
     | Ok _ => Ok Returned
     | Raised e => Raised e
     end,
     snd (sauce Sample.helpers Sample.config Sample.env
            (Sample.command [] None) (Some "https://x/a.png")
            (snd (apikey Sample.env (Sample.command [] None) Cases.key40
                    Sample.world)))).
Proof.
  apply (registered_guild_is_reinvoked Sample.helpers Sample.config Sample.env
           (Sample.command [] None) (Sample.command [] None) Cases.key40
           (Some "https://x/a.png") Sample.world); reflexivity.
Defined.

(** X16 at a guild without a key. *)
Lemma unregistered_guild_is_not_reinvoked_witness :
  sauce_error Sample.helpers Sample.config Sample.env
    (Sample.command [] None) (Some "https://x/a.png") CommandOnCooldown
    Sample.world
  = (Ok (Reraised CommandOnCooldown),
     record Sample.world
       [Send (basic_embed (lang "Global" "generic_error")
                (lang "Sauce" "api_limit_exceeded") None)]).
Proof.
  apply (unregistered_guild_is_not_reinvoked Sample.helpers Sample.config
           Sample.env (Sample.command [] None) (Some "https://x/a.png")
           Sample.world).
  reflexivity.
Defined.

(** X17 at a limit of 5 and four logged queries. *)
Lemma every_lookup_counts_witness :
  fst (_check_member_limited (Sample.config_with (Some 5%Z) None)
         (Sample.command [] None)
         (snd (_get_sauce (Sample.config_with (Some 5%Z) None) Sample.env
                 (Sample.command [] None) "https://x/a.png"
                 Cases.world_of_four)))
  = Ok true.
Proof.
  apply (every_lookup_counts (Sample.config_with (Some 5%Z) None) Sample.env
           (Sample.command [] None) "https://x/a.png" Cases.world_of_four
           5%Z).
  - reflexivity.
  - lia.
  - reflexivity.
Defined.

(** X18 at channel 100 and the setting "21003". *)
Lemma guard_accepts_any_occurrence_witness :
  sauce_guard Sample.env (Sample.command [] None)
    ("2" ++ Py.str (channel_id (Sample.command [] None)) ++ "3")
  = false.
Proof.
  apply (guard_accepts_any_occurrence Sample.env (Sample.command [] None)
           "2" "3").
  discriminate.
Defined.

(** X19 at a link after a word: the search passes the message over and
    finds the image of the older one. *)
Lemma image_link_is_the_whole_text_witness :
  _get_last_image_post_loop Sample.helpers Sample.env (Sample.command [] None)
    [{| message_id := 11; author := 8; content := "see https://x/a.png";
        attachments := [] |};
     Sample.post [Sample.b_jpg]] Sample.world
  = _get_last_image_post_loop Sample.helpers Sample.env
      (Sample.command [] None) [Sample.post [Sample.b_jpg]] Sample.world.
Proof.
  apply (image_link_is_the_whole_text Sample.helpers Sample.env
           (Sample.command [] None)
           {| message_id := 11; author := 8; content := "see https://x/a.png";
              attachments := [] |}
           [Sample.post [Sample.b_jpg]] Sample.world eq_refl) with " "%char.
  - simpl. tauto.
  - reflexivity.
  - discriminate.
Defined.

(** ** Two more ways the command ends early *)

Section Early.

Variable hlp : Helpers.
Variable cfg : Config.
Variable env : Env.

(** X20: a reply to a message that is gone fails like a reply to a message
    without images: when the reference resolves to no message (deleted or
    not resolved) and the command carries neither url nor attachment,
    [sauce] answers no_images and returns, without reading the channel
    history. *)
Theorem reply_to_missing_message_fails ctx url w target resolved :
  discord_channel_id cfg = Some target ->
  sauce_guard env ctx target = false ->
  reference ctx = Some resolved ->
  resolved = ResolvedNone \/ resolved = DeletedReferencedMessage ->
  image_in_command ctx url = false ->
  sauce hlp cfg env ctx url w
  = (Ok tt, record w [Reply (basic_embed (lang "Global" "generic_error")
                               (lang "Sauce" "no_images")
                               (Some AVATAR_SILLY)) None]).
Proof.
  intros Hcfg Hguard Href Hgone Hin.
  assert (Hurl : Py.truthy url = false).
  { unfold image_in_command in Hin. by apply orb_false_iff in Hin as [? _]. }
  rewrite (sauce_image_resolver hlp cfg env ctx url w target Hcfg Hguard).
  unfold bind, image_resolver. rewrite Href, Hin. simpl.
  destruct Hgone as [-> | ->]; simpl; by rewrite Hurl.
Qed.

(** X21: a url that does not validate is refused before anything else is
    done with it: for a supplied url that [validate_url] rejects, [sauce]
    answers bad_url and returns, whatever the member's count and limit;
    nothing is logged, so the attempt does not count against the member. *)
Theorem invalid_url_is_refused_first ctx u w target :
  discord_channel_id cfg = Some target ->
  sauce_guard env ctx target = false ->
  u <> "" ->
  validate_url hlp u = false ->
  sauce hlp cfg env ctx (Some u) w
  = (Ok tt, record w [Reply (basic_embed (lang "Global" "generic_error")
                               (lang "Sauce" "bad_url")
                               (Some AVATAR_SILLY)) None]).
Proof.
  intros Hcfg Hguard Hu Hvalid. apply truthy_Some in Hu.
  rewrite (sauce_image_resolver hlp cfg env ctx (Some u) w target Hcfg Hguard).
  assert (Hres : image_resolver hlp env ctx (Some u) w = (Ok (Some u), w)).
  { unfold image_resolver, image_in_command. rewrite Hu. simpl.
    by destruct (reference ctx). }
  unfold bind. rewrite Hres, Hu. simpl.
  unfold sauce_checks. by rewrite Hvalid.
Qed.

End Early.

(** X20 at a reply to a deleted message, in a channel with an image. *)
Lemma reply_to_missing_message_fails_witness :
  sauce Sample.helpers Sample.config
    (Sample.env_with [Sample.post [Sample.b_jpg]] [] [] (Ok []))
    (Sample.command [] (Some DeletedReferencedMessage)) None Sample.world
  = (Ok tt, record Sample.world [Sample.no_images]).
Proof.
  apply (reply_to_missing_message_fails Sample.helpers Sample.config
           (Sample.env_with [Sample.post [Sample.b_jpg]] [] [] (Ok []))
           (Sample.command [] (Some DeletedReferencedMessage)) None
           Sample.world "100,200" DeletedReferencedMessage).
  - reflexivity.
  - vm_compute; reflexivity.
  - reflexivity.
  - right; reflexivity.
  - reflexivity.
Defined.

(** X21 at a url without scheme, for a member over the limit. *)
Lemma invalid_url_is_refused_first_witness :
  sauce Sample.helpers (Sample.config_with (Some 5%Z) None) Sample.env
    (Sample.command [] None) (Some "ftp.example/a.png") Sample.busy_world
  = (Ok tt,
     record Sample.busy_world
       [Reply (basic_embed (lang "Global" "generic_error")
                 (lang "Sauce" "bad_url") (Some AVATAR_SILLY)) None]).
Proof.
  apply (invalid_url_is_refused_first Sample.helpers
           (Sample.config_with (Some 5%Z) None) Sample.env
           (Sample.command [] None) "ftp.example/a.png" Sample.busy_world
           "100,200").
  - reflexivity.
  - vm_compute; reflexivity.
  - discriminate.
  - reflexivity.
Defined.
